(** * LPProject: the Keycloak client and the Logipad directory client

    A shallow embedding of [logipad::auth::KeycloakClient] and
    [logipad::client::LogipadClient] (and of the non-namespaced
    [LPLogipadClient], whose method bodies are the same text), together with
    the part of the two libraries they call: nlohmann::json values and
    cpp-httplib requests.

    - C++ member functions become functions from the object's fields and the
      outside world to an outcome, the new fields and the new world.
    - [std::string] is [string]; [int] is [Z]; [std::optional<T>] is
      [option T]; [std::vector<T>] is [list T].
    - A [throw] is the outcome [Throw e]; a failed [JSON_ASSERT] is [Aborted].
    - The network is an oracle answering each request from the history of
      the requests sent so far; every request that leaves a client is
      appended to the world's log. *)

From Stdlib Require Import String Ascii List ZArith Bool Lia DecimalString.
Import ListNotations.
Open Scope string_scope.
Open Scope Z_scope.
Set Warnings "-register-all".

(** ** Outcomes of a C++ call *)

(** The three exception classes of nlohmann::json the clients can meet; all
    derive from [nlohmann::json::exception]. The number is the library's
    error id. *)
Inductive json_exception : Type :=
| parse_error (id : Z)
| type_error (id : Z)
| out_of_range (id : Z).

Inductive outcome (A : Type) : Type :=
| Ok (a : A)
| Throw (e : json_exception)
| Aborted.
Arguments Ok {A} a.
Arguments Throw {A} e.
Arguments Aborted {A}.

Definition bind {A B : Type} (c : outcome A) (k : A -> outcome B) : outcome B :=
  match c with
  | Ok a => k a
  | Throw e => Throw e
  | Aborted => Aborted
  end.

Notation "x <- c ;; k" := (bind c (fun x => k))
  (at level 61, c at next level, right associativity).

(** [std::string::empty]. *)
Definition empty (s : string) : bool :=
  match s with EmptyString => true | _ => false end.

(** [s.c_str()] handed where the callee reads a C string: the characters in
    front of the first NUL. *)
Fixpoint c_str (s : string) : string :=
  match s with
  | EmptyString => EmptyString
  | String c r => if Ascii.eqb c zero then EmptyString else String c (c_str r)
  end.

(** [std::to_string(int)]. *)
Definition to_string (z : Z) : string := NilZero.string_of_int (Z.to_int z).

(** ** nlohmann::json values *)

Module Json.

(** A floating-point number is kept as the token it was written with: no
    client operation reads a number. An object is a [std::map]: its keys are
    distinct and kept in increasing order. *)
Inductive json : Type :=
| JNull
| JBool (b : bool)
| JInt (z : Z)
| JFloat (token : string)
| JString (s : string)
| JArray (items : list json)
| JObject (members : list (string * json)).

Definition is_null (j : json) : bool := match j with JNull => true | _ => false end.
Definition is_array (j : json) : bool := match j with JArray _ => true | _ => false end.
Definition is_object (j : json) : bool := match j with JObject _ => true | _ => false end.

(** [std::map::find]. *)
Fixpoint find (k : string) (m : list (string * json)) : option json :=
  match m with
  | [] => None
  | (k', v) :: m' => if String.eqb k k' then Some v else find k m'
  end.

(** [std::map::operator[]] followed by an assignment: replaces the value of
    an existing key, or inserts the key at its place in the key order. *)
Fixpoint assign (k : string) (v : json) (m : list (string * json))
  : list (string * json) :=
  match m with
  | [] => [(k, v)]
  | (k', v') :: m' =>
      match String.compare k k' with
      | Eq => (k, v) :: m'
      | Lt => (k, v) :: (k', v') :: m'
      | Gt => (k', v') :: assign k v m'
      end
  end.

(** [j.contains(key)]: false on anything that is not an object. *)
Definition contains (j : json) (k : string) : bool :=
  match j with
  | JObject m => match find k m with Some _ => true | None => false end
  | _ => false
  end.

(** [j[key]] on a const value: the member; a missing key fails the
    library's assertion; anything but an object throws type_error 305. *)
Definition at_const (j : json) (k : string) : outcome json :=
  match j with
  | JObject m => match find k m with Some v => Ok v | None => Aborted end
  | _ => Throw (type_error 305)
  end.

(** [j[key]] on a non-const value, read: null turns into an empty object, a
    missing key is inserted with a null value, and the member is returned;
    anything but null or an object throws type_error 305. *)
Definition at_mut (j : json) (k : string) : outcome json :=
  match j with
  | JNull => Ok JNull
  | JObject m => Ok (match find k m with Some v => v | None => JNull end)
  | _ => Throw (type_error 305)
  end.

(** [j[key] = v] on a non-const value. *)
Definition set (j : json) (k : string) (v : json) : outcome json :=
  match j with
  | JNull => Ok (JObject [(k, v)])
  | JObject m => Ok (JObject (assign k v m))
  | _ => Throw (type_error 305)
  end.

(** [j.push_back(v)]. *)
Definition push_back (j : json) (v : json) : outcome json :=
  match j with
  | JNull => Ok (JArray [v])
  | JArray l => Ok (JArray (l ++ [v]))
  | _ => Throw (type_error 308)
  end.

(** [j.get<std::string>()], also the implicit conversion to [std::string]. *)
Definition get_string (j : json) : outcome string :=
  match j with
  | JString s => Ok s
  | _ => Throw (type_error 302)
  end.

(** [j.get<bool>()]. *)
Definition get_bool (j : json) : outcome bool :=
  match j with
  | JBool b => Ok b
  | _ => Throw (type_error 302)
  end.

(** The elements a range-for visits: the items of an array, the values of an
    object, nothing for null and the value itself for a scalar. *)
Definition elements (j : json) : list json :=
  match j with
  | JArray l => l
  | JObject m => map snd m
  | JNull => []
  | _ => [j]
  end.

End Json.
Export Json.

(** The textual side of the library: [json::parse], [json::dump] and
    [exception::what]. The clients are written against this interface, and
    what is proved of them holds for every reading of it; the examples run
    on the instance [Text.nlohmann] below. *)
Class JsonText : Type := {
  parse : string -> outcome json;
  dump : json -> outcome string;
  what : json_exception -> string;
  (* neither call ends in a failed assertion: it returns or it throws *)
  parse_returns_or_throws : forall s, parse s <> Aborted;
  dump_returns_or_throws : forall j, dump j <> Aborted
}.

(** ** cpp-httplib: sessions, requests and the network *)

Module httplib.

(** [httplib::SSLClient]: a TLS session bound to one host and port. The
    timeouts are [None] while the library's defaults apply, else seconds and
    microseconds. *)
Record SSLClient : Type := {
  host : string;
  port : Z;
  connection_timeout : option (Z * Z);
  read_timeout : option (Z * Z)
}.

(** [SSLClient(host, port)]. *)
Definition make_client (h : string) (p : Z) : SSLClient :=
  {| host := h; port := p; connection_timeout := None; read_timeout := None |}.

Definition set_connection_timeout (cli : SSLClient) (sec usec : Z) : SSLClient :=
  {| host := host cli; port := port cli;
     connection_timeout := Some (sec, usec); read_timeout := read_timeout cli |}.

Definition set_read_timeout (cli : SSLClient) (sec usec : Z) : SSLClient :=
  {| host := host cli; port := port cli;
     connection_timeout := connection_timeout cli; read_timeout := Some (sec, usec) |}.

(** [httplib::Params] is a [std::multimap] of strings under [std::less], and
    [httplib::Headers] one under the library's [detail::ci], which compares
    without regard to case. A container is the list of its pairs in the order
    an iteration visits them, which is the order of the keys, and the order
    of insertion among equal keys; it is the order the library writes the
    pairs in. *)
Definition Params : Type := list (string * string).
Definition Headers : Type := list (string * string).

(** [std::lexicographical_compare] under a comparison of characters. *)
Fixpoint lexicographical_compare (lt : ascii -> ascii -> bool) (s1 s2 : string)
  : bool :=
  match s1, s2 with
  | _, EmptyString => false
  | EmptyString, String _ _ => true
  | String c1 r1, String c2 r2 =>
      if lt c1 c2 then true
      else if lt c2 c1 then false
      else lexicographical_compare lt r1 r2
  end.

(** [::tolower] in the C locale, which the program never leaves. *)
Definition tolower (c : ascii) : ascii :=
  let n := N_of_ascii c in
  if ((65 <=? n) && (n <=? 90))%N then ascii_of_N (n + 32) else c.

(** [std::less<std::string>]: the order of the bytes. *)
Definition less : string -> string -> bool :=
  lexicographical_compare Ascii.ltb.

(** [detail::ci]. *)
Definition ci : string -> string -> bool :=
  lexicographical_compare (fun c1 c2 => Ascii.ltb (tolower c1) (tolower c2)).

(** [m.emplace(k, v)] on a multimap ordered by [before]: the pair goes behind
    the pairs whose key is not greater, in front of the first greater key. *)
Fixpoint emplace (before : string -> string -> bool) (k v : string)
  (m : list (string * string)) : list (string * string) :=
  match m with
  | [] => [(k, v)]
  | (k', v') :: m' =>
      if before k k' then (k, v) :: (k', v') :: m'
      else (k', v') :: emplace before k v m'
  end.

(** [httplib::Headers h = { ... }]: the pairs of the initializer list,
    inserted one after the other. *)
Definition make_headers (l : list (string * string)) : Headers :=
  fold_left (fun m kv => emplace ci (fst kv) (snd kv) m) l [].

Inductive Method : Type := GET | POST.

Inductive Content : Type :=
| NoContent
| FormContent (params : Params)
| TextContent (text content_type : string).

Record Request : Type := {
  session : SSLClient;
  method : Method;
  path : string;
  headers : Headers;
  content : Content
}.

Record Response : Type := {
  status : Z;
  body : string
}.

(** [httplib::Result]: [None] when no response was received. *)
Definition Result : Type := option Response.

(** The world outside the process: how the network answers a request, given
    the requests sent before it, and the log of those requests. *)
Record World : Type := {
  network : list Request -> Request -> Result;
  sent : list Request
}.

Definition send (r : Request) (w : World) : Result * World :=
  (network w (sent w) r, {| network := network w; sent := sent w ++ [r] |}).

(** [cli.Post(path, params)]. *)
Definition Post_form (cli : SSLClient) (url : string) (params : Params)
  (w : World) : Result * World :=
  send {| session := cli; method := POST; path := url; headers := [];
          content := FormContent params |} w.

(** [cli.Post(path, headers, body, content_type)]. *)
Definition Post (cli : SSLClient) (url : string) (hs : Headers)
  (text content_type : string) (w : World) : Result * World :=
  send {| session := cli; method := POST; path := url; headers := hs;
          content := TextContent text content_type |} w.

(** [cli.Get(path, headers)]. *)
Definition Get (cli : SSLClient) (url : string) (hs : Headers)
  (w : World) : Result * World :=
  send {| session := cli; method := GET; path := url; headers := hs;
          content := NoContent |} w.

End httplib.
Import httplib.

(** ** logipad::auth::KeycloakClient *)

Module KeycloakClient.

Record UserInfo : Type := {
  username : string;
  email : string;
  firstName : string;
  lastName : string;
  password : string;
  enabled : bool;
  emailVerified : bool
}.

(** [UserInfo::toJson]. *)
Definition toJson (u : UserInfo) : outcome json :=
  json <- Json.set JNull "username" (JString (username u)) ;;
  json <- Json.set json "email" (JString (email u)) ;;
  json <- Json.set json "firstName" (JString (firstName u)) ;;
  json <- Json.set json "lastName" (JString (lastName u)) ;;
  json <- Json.set json "enabled" (JBool (enabled u)) ;;
  json <- Json.set json "emailVerified" (JBool (emailVerified u)) ;;
  if negb (empty (password u)) then
    json <- Json.set json "credentials" (JArray []) ;;
    cred <- Json.set JNull "type" (JString "password") ;;
    cred <- Json.set cred "value" (JString "logipad") ;;
    cred <- Json.set cred "temporary" (JBool true) ;;
    credentials <- Json.at_mut json "credentials" ;;
    credentials <- Json.push_back credentials cred ;;
    Json.set json "credentials" credentials
  else Ok json.

Record t : Type := {
  m_host : string;
  m_port : Z;
  m_realm : string;
  m_clientId : string;
  m_username : string;
  m_password : string;
  m_accessToken : string;
  m_lastError : string;
  m_client : SSLClient
}.

Definition set_accessToken (c : t) (v : string) : t :=
  {| m_host := m_host c; m_port := m_port c; m_realm := m_realm c;
     m_clientId := m_clientId c; m_username := m_username c;
     m_password := m_password c; m_accessToken := v;
     m_lastError := m_lastError c; m_client := m_client c |}.

Definition set_lastError (c : t) (v : string) : t :=
  {| m_host := m_host c; m_port := m_port c; m_realm := m_realm c;
     m_clientId := m_clientId c; m_username := m_username c;
     m_password := m_password c; m_accessToken := m_accessToken c;
     m_lastError := v; m_client := m_client c |}.

(** The constructor; the defaults of the declaration are the caller's to
    supply. *)
Definition make (host : string) (port : Z) (realm clientId username password : string) : t :=
  {| m_host := host; m_port := port; m_realm := realm; m_clientId := clientId;
     m_username := username; m_password := password;
     m_accessToken := ""; m_lastError := "";
     m_client := set_read_timeout
                   (set_connection_timeout (make_client host port) 10 0) 10 0 |}.

Definition getAccessToken (c : t) : string := m_accessToken c.
Definition isAuthenticated (c : t) : bool := negb (empty (m_accessToken c)).
Definition getLastError (c : t) : string := m_lastError c.

(** [setCredentials]. *)
Definition setCredentials (c : t) (username password : string) : t :=
  {| m_host := m_host c; m_port := m_port c; m_realm := m_realm c;
     m_clientId := m_clientId c; m_username := username;
     m_password := password; m_accessToken := "";
     m_lastError := m_lastError c; m_client := m_client c |}.

(** [getAuthHeaders]. *)
Definition getAuthHeaders (c : t) : Headers :=
  let headers : Headers := [] in
  let headers :=
    if negb (empty (m_accessToken c))
    then emplace ci "Authorization" ("Bearer " ++ m_accessToken c) headers
    else headers in
  let headers := emplace ci "Content-Type" "application/json" headers in
  emplace ci "Accept" "application/json" headers.

Section WithText.
Context {text : JsonText}.

(** [authenticate]. *)
Definition authenticate (c : t) (w : World) : outcome bool * t * World :=
  let c := set_lastError c "" in
  let c := set_accessToken c "" in
  if empty (m_username c) || empty (m_password c) then
    (Ok false, set_lastError c "Username or password not set", w)
  else
    let tokenUrl := "/realms/" ++ m_realm c ++ "/protocol/openid-connect/token" in
    let params : Params := [] in
    let params := emplace less "client_id" (m_clientId c) params in
    let params := emplace less "grant_type" "password" params in
    let params := emplace less "username" (m_username c) params in
    let params := emplace less "password" (m_password c) params in
    let (res, w) := Post_form (m_client c) (c_str tokenUrl) params w in
    match res with
    | Some r =>
        if status r =? 200 then
          (* the try block: the token found, or nothing when the key is missing *)
          match
            json <- parse (body r) ;;
            if Json.contains json "access_token" then
              v <- Json.at_mut json "access_token" ;;
              s <- Json.get_string v ;;
              Ok (Some s)
            else Ok None
          with
          | Ok (Some s) => (Ok true, set_accessToken c s, w)
          | Ok None =>
              (Ok false, set_lastError c "Access token not found in response", w)
          | Throw e =>
              (Ok false,
               set_lastError c ("Failed to parse JSON response: " ++ what e), w)
          | Aborted => (Aborted, c, w)
          end
        else
          let c := set_lastError c
                     ("Authentication failed with status: " ++ to_string (status r)) in
          let c := if negb (empty (body r))
                   then set_lastError c (m_lastError c ++ " - " ++ body r)
                   else c in
          (Ok false, c, w)
    | None => (Ok false, set_lastError c "Authentication request failed", w)
    end.

(** [ensureAuthenticated]. *)
Definition ensureAuthenticated (c : t) (w : World) : outcome bool * t * World :=
  if empty (m_accessToken c) then authenticate c w else (Ok true, c, w).

(** [createUser]. *)
Definition createUser (c : t) (userInfo : UserInfo) (realm : string) (w : World)
  : outcome bool * t * World :=
  let c := set_lastError c "" in
  let '(authenticated, c, w) := ensureAuthenticated c w in
  match authenticated with
  | Throw e => (Throw e, c, w)
  | Aborted => (Aborted, c, w)
  | Ok false =>
      (Ok false, set_lastError c ("Not authenticated: " ++ m_lastError c), w)
  | Ok true =>
      if empty (username userInfo) then
        (Ok false, set_lastError c "Username is required", w)
      else if empty (email userInfo) then
        (Ok false, set_lastError c "Email is required", w)
      else
        let userUrl := "/admin/realms/" ++ realm ++ "/users" in
        match (userJson <- toJson userInfo ;; dump userJson) with
        | Throw e => (Throw e, c, w)
        | Aborted => (Aborted, c, w)
        | Ok jsonBody =>
            let headers := getAuthHeaders c in
            let (res, w) := Post (m_client c) (c_str userUrl) headers jsonBody "application/json" w in
            match res with
            | Some r =>
                if status r =? 201 then (Ok true, c, w)
                else if status r =? 409 then
                  (Ok false,
                   set_lastError c
                     ("User with username '" ++ username userInfo ++ "' already exists"),
                   w)
                else
                  let c := set_lastError c
                             ("Failed to create user. Status: " ++ to_string (status r)) in
                  if negb (empty (body r)) then
                    match
                      errorJson <- parse (body r) ;;
                      if Json.contains errorJson "errorMessage" then
                        v <- Json.at_mut errorJson "errorMessage" ;;
                        s <- Json.get_string v ;;
                        Ok (" - " ++ s)
                      else Ok (" - " ++ body r)
                    with
                    | Ok suffix => (Ok false, set_lastError c (m_lastError c ++ suffix), w)
                    | Throw _ =>
                        (Ok false, set_lastError c (m_lastError c ++ " - " ++ body r), w)
                    | Aborted => (Aborted, c, w)
                    end
                  else (Ok false, c, w)
            | None => (Ok false, set_lastError c "Request failed to create user", w)
            end
        end
  end.

End WithText.
End KeycloakClient.

(** ** logipad::client::LogipadClient (and LPLogipadClient) *)

Module LogipadClient.

Record User : Type := {
  guid : string;
  created_at : option string;
  created_by : option string;
  modified_at : option string;
  modified_by : option string;
  last_login_at : option string;
  last_activity_at : option string;
  last_document_service_activity : option string;
  last_eform_service_activity : option string;
  last_briefing_service_activity : option string;
  name : option string;
  type : option string;
  full_name : option string;
  email : option string;
  three_lc : option string;
  department : option string;
  description : option string;
  is_active : bool;
  is_reportable : bool
}.

Record Users : Type := { users : list User }.

Record t : Type := {
  m_host : string;
  m_port : Z;
  m_realm : string;
  m_clientId : string;
  m_username : string;
  m_password : string;
  m_accessToken : string;
  m_httplibClient : SSLClient;
  m_keycloakClient : option KeycloakClient.t
}.

Definition set_accessToken (c : t) (v : string) : t :=
  {| m_host := m_host c; m_port := m_port c; m_realm := m_realm c;
     m_clientId := m_clientId c; m_username := m_username c;
     m_password := m_password c; m_accessToken := v;
     m_httplibClient := m_httplibClient c;
     m_keycloakClient := m_keycloakClient c |}.

(** The constructor: [m_accessToken] and [m_keycloakClient] are not in the
    initializer list, so the string is empty and the pointer is null. *)
Definition make (host : string) (port : Z) (realm clientId username password : string) : t :=
  {| m_host := host; m_port := port; m_realm := realm; m_clientId := clientId;
     m_username := username; m_password := password; m_accessToken := "";
     m_httplibClient := make_client host port;
     m_keycloakClient := None |}.

Definition getAccessToken (c : t) : string := m_accessToken c.
Definition isAuthenticated (c : t) : bool := negb (empty (m_accessToken c)).

(** One optional field of the loop body:
    [if (userJson.contains(k) && !userJson[k].is_null())
       user.k = userJson[k].get<std::string>();] *)
Definition optional_field (userJson : json) (k : string) : outcome (option string) :=
  if Json.contains userJson k then
    v <- Json.at_const userJson k ;;
    if negb (Json.is_null v) then
      v <- Json.at_const userJson k ;;
      s <- Json.get_string v ;;
      Ok (Some s)
    else Ok None
  else Ok None.

(** One boolean field of the loop body:
    [user.k = userJson.contains(k) ? userJson[k].get<bool>() : dflt;] *)
Definition boolean_field (userJson : json) (k : string) (dflt : bool) : outcome bool :=
  if Json.contains userJson k then
    v <- Json.at_const userJson k ;;
    Json.get_bool v
  else Ok dflt.

(** The body of the two range-for loops of [getAllUsers] (the same statements
    in both), up to the [push_back]: the [User] built from one entry. *)
Definition read_user (userJson : json) : outcome User :=
  guid <- (if Json.contains userJson "guid"
           then v <- Json.at_const userJson "guid" ;; Json.get_string v
           else Ok "") ;;
  created_at <- optional_field userJson "created_at" ;;
  created_by <- optional_field userJson "created_by" ;;
  modified_at <- optional_field userJson "modified_at" ;;
  modified_by <- optional_field userJson "modified_by" ;;
  last_login_at <- optional_field userJson "last_login_at" ;;
  last_activity_at <- optional_field userJson "last_activity_at" ;;
  last_document_service_activity <-
    optional_field userJson "last_document_service_activity" ;;
  last_eform_service_activity <-
    optional_field userJson "last_eform_service_activity" ;;
  last_briefing_service_activity <-
    optional_field userJson "last_briefing_service_activity" ;;
  name <- optional_field userJson "name" ;;
  type <- optional_field userJson "type" ;;
  full_name <- optional_field userJson "full_name" ;;
  email <- optional_field userJson "email" ;;
  three_lc <- optional_field userJson "three_lc" ;;
  department <- optional_field userJson "department" ;;
  description <- optional_field userJson "description" ;;
  is_active <- boolean_field userJson "is_active" true ;;
  is_reportable <- boolean_field userJson "is_reportable" false ;;
  Ok {| guid := guid; created_at := created_at; created_by := created_by;
        modified_at := modified_at; modified_by := modified_by;
        last_login_at := last_login_at; last_activity_at := last_activity_at;
        last_document_service_activity := last_document_service_activity;
        last_eform_service_activity := last_eform_service_activity;
        last_briefing_service_activity := last_briefing_service_activity;
        name := name; type := type; full_name := full_name; email := email;
        three_lc := three_lc; department := department;
        description := description;
        is_active := is_active; is_reportable := is_reportable |}.

(** The range-for loop: every entry read is pushed onto [users.users]; an
    exception leaves the loop with the entries pushed so far. *)
Fixpoint read_users (entries : list json) (us : Users) : outcome unit * Users :=
  match entries with
  | [] => (Ok tt, us)
  | userJson :: rest =>
      match read_user userJson with
      | Ok user => read_users rest {| users := users us ++ [user] |}
      | Throw e => (Throw e, us)
      | Aborted => (Aborted, us)
      end
  end.

Section WithText.
Context {text : JsonText}.

(** [authenticate]. *)
Definition authenticate (c : t) (w : World) : outcome bool * t * World :=
  let c := set_accessToken c "" in
  if empty (m_username c) || empty (m_password c) then (Ok false, c, w)
  else
    let token_url := "/realms/" ++ m_realm c ++ "/protocol/openid-connect/token" in
    let params : Params := [] in
    let params := emplace less "client_id" (m_clientId c) params in
    let params := emplace less "grant_type" "password" params in
    let params := emplace less "username" (m_username c) params in
    let params := emplace less "password" (m_password c) params in
    let (res, w) := Post_form (m_httplibClient c) (c_str token_url) params w in
    match res with
    | Some r =>
        if status r =? 200 then
          match
            json <- parse (body r) ;;
            v <- Json.at_mut json "access_token" ;;
            Json.get_string v
          with
          | Ok s => (Ok true, set_accessToken c s, w)
          | Throw e => (Throw e, c, w)
          | Aborted => (Aborted, c, w)
          end
        else (Ok false, c, w)
    | None => (Ok false, c, w)
    end.

(** [getAllUsers]: the outcome, the caller's [users] and the world. No member
    of the client is written. *)
Definition getAllUsers (c : t) (us : Users) (apiHost : string) (apiPort : Z)
  (w : World) : outcome bool * Users * World :=
  let us := {| users := [] |} in
  if empty (m_accessToken c) then (Ok false, us, w)
  else
    let apiClient := make_client apiHost apiPort in
    let token := "Bearer " ++ m_accessToken c in
    let headers : Headers :=
      make_headers [("Authorization", token); ("Accept", "application/json")] in
    let (res, w) := Get apiClient "/users" headers w in
    match res with
    | Some r =>
        if status r =? 200 then
          (* the try block; a json exception anywhere in it returns false *)
          match parse (body r) with
          | Ok json =>
              if Json.is_array json then
                match read_users (Json.elements json) us with
                | (Ok _, us) => (Ok true, us, w)
                | (Throw _, us) => (Ok false, us, w)
                | (Aborted, us) => (Aborted, us, w)
                end
              else
                match
                  (if Json.is_object json && Json.contains json "users"
                   then v <- Json.at_mut json "users" ;; Ok (Json.is_array v)
                   else Ok false)
                with
                | Ok true =>
                    match Json.at_mut json "users" with
                    | Ok v =>
                        match read_users (Json.elements v) us with
                        | (Ok _, us) => (Ok true, us, w)
                        | (Throw _, us) => (Ok false, us, w)
                        | (Aborted, us) => (Aborted, us, w)
                        end
                    | Throw _ => (Ok false, us, w)
                    | Aborted => (Aborted, us, w)
                    end
                | Ok false => (Ok true, us, w)
                | Throw _ => (Ok false, us, w)
                | Aborted => (Aborted, us, w)
                end
          | Throw _ => (Ok false, us, w)
          | Aborted => (Aborted, us, w)
          end
        else (Ok false, us, w)
    | None => (Ok false, us, w)
    end.

End WithText.
End LogipadClient.

(** ** The JSON text format, as nlohmann::json reads and writes it

    [json::parse] accepts exactly one RFC 8259 value between optional
    whitespace, after an optional UTF-8 byte order mark; strings must be
    well-formed UTF-8 with control characters escaped. A floating-point
    number stays the token it was read from, and is written back as that
    token (the library prints the shortest decimal naming the same double);
    [what] gives the bracketed prefix every message of the library starts
    with and leaves the free text after it out. *)

Module Text.

Definition code (a : ascii) : Z := Z.of_N (N_of_ascii a).
Definition char (z : Z) : ascii := ascii_of_N (Z.to_N z).

Definition between (lo hi : Z) (a : ascii) : bool :=
  (lo <=? code a) && (code a <=? hi).

Definition is_space (a : ascii) : bool :=
  (code a =? 32) || (code a =? 9) || (code a =? 10) || (code a =? 13).

Definition is_digit (a : ascii) : bool := between 48 57 a.

Fixpoint skip_space (s : string) : string :=
  match s with
  | String a r => if is_space a then skip_space r else s
  | EmptyString => s
  end.

(** The longest prefix of digits, and what follows it. *)
Fixpoint scan_digits (s : string) : string * string :=
  match s with
  | String a r =>
      if is_digit a then let (ds, rest) := scan_digits r in (String a ds, rest)
      else (EmptyString, s)
  | EmptyString => (EmptyString, s)
  end.

(** The number written by a string of digits. *)
Fixpoint digits_value (acc : Z) (s : string) : Z :=
  match s with
  | String a r => digits_value (10 * acc + (code a - 48)) r
  | EmptyString => acc
  end.

Definition hex_value (a : ascii) : option Z :=
  if between 48 57 a then Some (code a - 48)
  else if between 97 102 a then Some (code a - 87)
  else if between 65 70 a then Some (code a - 55)
  else None.

(** Four hexadecimal digits after [\u]. *)
Definition scan_hex4 (s : string) : option (Z * string) :=
  match s with
  | String a (String b (String c (String d r))) =>
      match hex_value a, hex_value b, hex_value c, hex_value d with
      | Some x, Some y, Some z, Some t => Some (4096 * x + 256 * y + 16 * z + t, r)
      | _, _, _, _ => None
      end
  | _ => None
  end.

(** The UTF-8 bytes of a code point. *)
Definition utf8_encode (cp : Z) : string :=
  if cp <? 128 then String (char cp) EmptyString
  else if cp <? 2048 then
    String (char (192 + cp / 64)) (String (char (128 + cp mod 64)) EmptyString)
  else if cp <? 65536 then
    String (char (224 + cp / 4096))
      (String (char (128 + (cp / 64) mod 64))
         (String (char (128 + cp mod 64)) EmptyString))
  else
    String (char (240 + cp / 262144))
      (String (char (128 + (cp / 4096) mod 64))
         (String (char (128 + (cp / 64) mod 64))
            (String (char (128 + cp mod 64)) EmptyString))).

(** One well-formed multi-byte UTF-8 sequence starting with the byte [a]
    (which is at least 0x80): the sequence and what follows it. *)
Definition scan_utf8 (a : ascii) (r : string) : option (string * string) :=
  let cont := between 128 191 in
  let two (lo hi : Z) :=
    match r with
    | String b r1 =>
        if between lo hi b then Some (String a (String b EmptyString), r1) else None
    | _ => None
    end in
  let three (lo hi : Z) :=
    match r with
    | String b (String c r2) =>
        if between lo hi b && cont c
        then Some (String a (String b (String c EmptyString)), r2) else None
    | _ => None
    end in
  let four (lo hi : Z) :=
    match r with
    | String b (String c (String d r3)) =>
        if between lo hi b && cont c && cont d
        then Some (String a (String b (String c (String d EmptyString))), r3)
        else None
    | _ => None
    end in
  if between 194 223 a then two 128 191
  else if code a =? 224 then three 160 191
  else if between 225 236 a || between 238 239 a then three 128 191
  else if code a =? 237 then three 128 159
  else if code a =? 240 then four 144 191
  else if between 241 243 a then four 128 191
  else if code a =? 244 then four 128 143
  else None.

(** The characters of a string token after its opening quote, up to the
    closing quote: the string denoted and what follows the closing quote. *)
Fixpoint scan_string (fuel : nat) (s : string) : option (string * string) :=
  match fuel with
  | O => None
  | S fuel =>
      match s with
      | EmptyString => None
      | String a r =>
          if code a =? 34 then Some (EmptyString, r)
          else if code a =? 92 then
            match r with
            | String e r1 =>
                let simple (z : Z) :=
                  match scan_string fuel r1 with
                  | Some (t, rest) => Some (String (char z) t, rest)
                  | None => None
                  end in
                if code e =? 34 then simple 34
                else if code e =? 92 then simple 92
                else if code e =? 47 then simple 47
                else if code e =? 98 then simple 8
                else if code e =? 102 then simple 12
                else if code e =? 110 then simple 10
                else if code e =? 114 then simple 13
                else if code e =? 116 then simple 9
                else if code e =? 117 then
                  match scan_hex4 r1 with
                  | Some (cp1, r2) =>
                      if (55296 <=? cp1) && (cp1 <=? 56319) then
                        match r2 with
                        | String b1 (String b2 r3) =>
                            if (code b1 =? 92) && (code b2 =? 117) then
                              match scan_hex4 r3 with
                              | Some (cp2, r4) =>
                                  if (56320 <=? cp2) && (cp2 <=? 57343) then
                                    match scan_string fuel r4 with
                                    | Some (t, rest) =>
                                        Some (utf8_encode
                                                (65536 + (cp1 - 55296) * 1024
                                                 + (cp2 - 56320)) ++ t, rest)
                                    | None => None
                                    end
                                  else None
                              | None => None
                              end
                            else None
                        | _ => None
                        end
                      else if (56320 <=? cp1) && (cp1 <=? 57343) then None
                      else
                        match scan_string fuel r2 with
                        | Some (t, rest) => Some (utf8_encode cp1 ++ t, rest)
                        | None => None
                        end
                  | None => None
                  end
                else None
            | EmptyString => None
            end
          else if code a <? 32 then None
          else if code a <? 128 then
            match scan_string fuel r with
            | Some (t, rest) => Some (String a t, rest)
            | None => None
            end
          else
            match scan_utf8 a r with
            | Some (bytes, r1) =>
                match scan_string fuel r1 with
                | Some (t, rest) => Some (bytes ++ t, rest)
                | None => None
                end
            | None => None
            end
      end
  end.

Inductive token : Type :=
| literal_null
| literal_true
| literal_false
| value_string (s : string)
| value_integer (z : Z)
| value_float (text : string) (finite : bool)
| begin_array
| end_array
| begin_object
| end_object
| name_separator
| value_separator
| lex_error.

(** [s] without the prefix [p], when it starts with it. *)
Fixpoint strip_prefix (p s : string) : option string :=
  match p, s with
  | EmptyString, _ => Some s
  | String a p', String b s' => if Ascii.eqb a b then strip_prefix p' s' else None
  | String _ _, EmptyString => None
  end.

(** Whether the decimal [digits * 10 ^ e10] reads as a finite double: it does
    unless it reaches [2^1024 - 2^970], half an ulp above the largest
    double. *)
Definition reads_finite (digits : string) (e10 : Z) : bool :=
  let d := digits_value 0 digits in
  let n := Z.of_nat (String.length digits) in
  let limit := 2 ^ 1024 - 2 ^ 970 in
  if d =? 0 then true
  else if 310 <? e10 then false
  else if e10 + n <? 300 then true
  else if 0 <=? e10 then d * 10 ^ e10 <? limit
  else d <? limit * 10 ^ (- e10).

(** A number token at the head of [s] (which starts with a digit or a minus
    sign), and what follows it. *)
Definition scan_number (s : string) : option (token * string) :=
  let (neg, s1) :=
    match s with
    | String a r => if code a =? 45 then (true, r) else (false, s)
    | EmptyString => (false, s)
    end in
  let sign := if neg then "-" else "" in
  let int_part :=
    match s1 with
    | String a r =>
        if code a =? 48 then Some ("0", r)
        else if between 49 57 a then Some (scan_digits s1)
        else None
    | EmptyString => None
    end in
  match int_part with
  | None => None
  | Some (ds, r1) =>
      let frac_part :=
        match r1 with
        | String a r =>
            if code a =? 46 then
              let (fs, r2) := scan_digits r in
              if empty fs then None else Some (Some fs, r2)
            else Some (None, r1)
        | EmptyString => Some (None, r1)
        end in
      match frac_part with
      | None => None
      | Some (fs, r2) =>
          let exp_part :=
            match r2 with
            | String a r =>
                if (code a =? 101) || (code a =? 69) then
                  let (sg, r3) :=
                    match r with
                    | String b r' =>
                        if code b =? 43 then ("+", r')
                        else if code b =? 45 then ("-", r')
                        else ("", r)
                    | EmptyString => ("", r)
                    end in
                  let (es, r4) := scan_digits r3 in
                  if empty es then None
                  else Some (Some (String a sg, es), r4)
                else Some (None, r2)
            | EmptyString => Some (None, r2)
            end in
          match exp_part with
          | None => None
          | Some (ex, rest) =>
              let z := digits_value 0 ds in
              let integral :=
                match fs, ex with
                | None, None =>
                    if neg then z <=? 2 ^ 63 else z <? 2 ^ 64
                | _, _ => false
                end in
              if integral then Some (value_integer (if neg then - z else z), rest)
              else
                let fdigits := match fs with Some f => f | None => "" end in
                let e := match ex with
                         | Some (mark, es) =>
                             if String.eqb (String.substring 1 1 mark) "-"
                             then - digits_value 0 es else digits_value 0 es
                         | None => 0
                         end in
                let text :=
                  sign ++ ds
                  ++ match fs with Some f => "." ++ f | None => "" end
                  ++ match ex with Some (mark, es) => mark ++ es | None => "" end in
                Some (value_float text
                        (reads_finite (ds ++ fdigits)
                           (e - Z.of_nat (String.length fdigits))),
                      rest)
          end
      end
  end.

(** The tokens of a text, up to its end or to the first lexical error. *)
Fixpoint tokens (fuel : nat) (s : string) : list token :=
  match fuel with
  | O => [lex_error]
  | S fuel =>
      match skip_space s with
      | EmptyString => []
      | String a r as s' =>
          let literal (rest : string) (t : token) :=
            match strip_prefix rest r with
            | Some r' => t :: tokens fuel r'
            | None => [lex_error]
            end in
          if code a =? 91 then begin_array :: tokens fuel r
          else if code a =? 93 then end_array :: tokens fuel r
          else if code a =? 123 then begin_object :: tokens fuel r
          else if code a =? 125 then end_object :: tokens fuel r
          else if code a =? 58 then name_separator :: tokens fuel r
          else if code a =? 44 then value_separator :: tokens fuel r
          else if code a =? 110 then literal "ull" literal_null
          else if code a =? 116 then literal "rue" literal_true
          else if code a =? 102 then literal "alse" literal_false
          else if code a =? 34 then
            match scan_string (S (String.length r)) r with
            | Some (str, r') => value_string str :: tokens fuel r'
            | None => [lex_error]
            end
          else if (code a =? 45) || is_digit a then
            match scan_number s' with
            | Some (t, r') => t :: tokens fuel r'
            | None => [lex_error]
            end
          else [lex_error]
      end
  end.

(** The containers under construction around the value being read. *)
Inductive frame : Type :=
| in_array (done : list json)
| in_object (done : list (string * json)) (key : string).

Inductive expect : Type :=
| a_value
| a_value_or_end_array
| a_key (done : list (string * json)) (or_end : bool)
| after_value (v : json).

(** The parser proper: a value, then the end of the input. A key met twice
    keeps its last value. *)
Fixpoint parse_tokens (ts : list token) (e : expect) (st : list frame)
  : outcome json :=
  let syntax_error : outcome json := Throw (parse_error 101) in
  match ts with
  | [] =>
      match e, st with
      | after_value v, [] => Ok v
      | _, _ => syntax_error
      end
  | t :: rest =>
      match e with
      | a_value | a_value_or_end_array =>
          match t with
          | literal_null => parse_tokens rest (after_value JNull) st
          | literal_true => parse_tokens rest (after_value (JBool true)) st
          | literal_false => parse_tokens rest (after_value (JBool false)) st
          | value_string s => parse_tokens rest (after_value (JString s)) st
          | value_integer z => parse_tokens rest (after_value (JInt z)) st
          | value_float text finite =>
              if finite then parse_tokens rest (after_value (JFloat text)) st
              else Throw (out_of_range 406)
          | begin_array => parse_tokens rest a_value_or_end_array (in_array [] :: st)
          | begin_object => parse_tokens rest (a_key [] true) st
          | end_array =>
              match e, st with
              | a_value_or_end_array, in_array [] :: st' =>
                  parse_tokens rest (after_value (JArray [])) st'
              | _, _ => syntax_error
              end
          | _ => syntax_error
          end
      | a_key done or_end =>
          match t with
          | value_string k =>
              match rest with
              | name_separator :: rest' =>
                  parse_tokens rest' a_value (in_object done k :: st)
              | _ => syntax_error
              end
          | end_object =>
              if or_end then parse_tokens rest (after_value (JObject done)) st
              else syntax_error
          | _ => syntax_error
          end
      | after_value v =>
          match st, t with
          | in_array done :: st', value_separator =>
              parse_tokens rest a_value (in_array (v :: done) :: st')
          | in_array done :: st', end_array =>
              parse_tokens rest (after_value (JArray (rev (v :: done)))) st'
          | in_object done k :: st', value_separator =>
              parse_tokens rest (a_key (Json.assign k v done) false) st'
          | in_object done k :: st', end_object =>
              parse_tokens rest (after_value (JObject (Json.assign k v done))) st'
          | _, _ => syntax_error
          end
      end
  end.

(** An optional byte order mark: EF BB BF, or nothing; a lone EF is an
    error. *)
Definition skip_bom (s : string) : option string :=
  match s with
  | String a r =>
      if code a =? 239 then
        match r with
        | String b (String c r') =>
            if (code b =? 187) && (code c =? 191) then Some r' else None
        | _ => None
        end
      else Some s
  | EmptyString => Some s
  end.

(** [nlohmann::json::parse(text)]. *)
Definition parse_text (s : string) : outcome json :=
  match skip_bom s with
  | Some s' => parse_tokens (tokens (S (String.length s')) s') a_value []
  | None => Throw (parse_error 101)
  end.

Definition hex_digit (z : Z) : ascii :=
  if z <? 10 then char (48 + z) else char (87 + z).

(** A string between quotes, escaped the way [dump] escapes it; ill-formed
    UTF-8 throws type_error 316. *)
Fixpoint dump_escaped (fuel : nat) (s : string) : outcome string :=
  match fuel with
  | O => Throw (type_error 316)
  | S fuel =>
      match s with
      | EmptyString => Ok EmptyString
      | String a r =>
          let escape (e : string) := t <- dump_escaped fuel r ;; Ok (e ++ t) in
          if code a =? 8 then escape "\b"
          else if code a =? 9 then escape "\t"
          else if code a =? 10 then escape "\n"
          else if code a =? 12 then escape "\f"
          else if code a =? 13 then escape "\r"
          else if code a =? 34 then escape (String (char 92) (String (char 34) EmptyString))
          else if code a =? 92 then escape "\\"
          else if code a <? 32 then
            escape ("\u00" ++ String (hex_digit (code a / 16))
                                (String (hex_digit (code a mod 16)) EmptyString))
          else if code a <? 128 then escape (String a EmptyString)
          else
            match scan_utf8 a r with
            | Some (bytes, r1) => t <- dump_escaped fuel r1 ;; Ok (bytes ++ t)
            | None => Throw (type_error 316)
            end
      end
  end.

Definition dump_string (s : string) : outcome string :=
  t <- dump_escaped (S (String.length s)) s ;;
  Ok (String (char 34) t ++ String (char 34) EmptyString).

(** [j.dump()]: the compact form, members in key order. *)
Fixpoint dump_json (j : json) : outcome string :=
  match j with
  | JNull => Ok "null"
  | JBool true => Ok "true"
  | JBool false => Ok "false"
  | JInt z => Ok (to_string z)
  | JFloat text => Ok text
  | JString s => dump_string s
  | JArray items =>
      let fix go (l : list json) : outcome string :=
        match l with
        | [] => Ok ""
        | [x] => dump_json x
        | x :: rest => s <- dump_json x ;; t <- go rest ;; Ok (s ++ "," ++ t)
        end in
      t <- go items ;; Ok ("[" ++ t ++ "]")
  | JObject members =>
      let member (kv : string * json) : outcome string :=
        k <- dump_string (fst kv) ;; v <- dump_json (snd kv) ;; Ok (k ++ ":" ++ v) in
      let fix go (l : list (string * json)) : outcome string :=
        match l with
        | [] => Ok ""
        | [kv] => member kv
        | kv :: rest => s <- member kv ;; t <- go rest ;; Ok (s ++ "," ++ t)
        end in
      t <- go members ;; Ok ("{" ++ t ++ "}")
  end.

(** [e.what()], up to the end of its bracketed prefix. *)
Definition what_prefix (e : json_exception) : string :=
  match e with
  | parse_error id => "[json.exception.parse_error." ++ to_string id ++ "]"
  | type_error id => "[json.exception.type_error." ++ to_string id ++ "]"
  | out_of_range id => "[json.exception.out_of_range." ++ to_string id ++ "]"
  end.

Lemma parse_tokens_not_abort (ts : list token) :
  forall e st, parse_tokens ts e st <> Aborted.
Proof.
  remember (List.length ts) as n eqn:L.
  assert (B : (List.length ts <= n)%nat) by lia. clear L.
  revert ts B. induction n as [|n IH]; intros ts B e st.
  - destruct ts; [|simpl in B; lia]. simpl. destruct e, st; discriminate.
  - destruct ts as [|t rest]; [simpl; destruct e, st; discriminate|].
    simpl in B.
    assert (R : forall e' st', parse_tokens rest e' st' <> Aborted)
      by (intros; apply IH; lia).
    assert (R2 : forall t' rest' e' st', rest = t' :: rest' ->
               parse_tokens rest' e' st' <> Aborted)
      by (intros; subst; apply IH; simpl in B; lia).
    simpl. destruct e.
    + destruct t; try discriminate; try apply R.
      destruct finite; [apply R | discriminate].
    + destruct t; try discriminate; try apply R.
      * destruct finite; [apply R | discriminate].
      * destruct st as [|[[|]|] st']; try discriminate. apply R.
    + destruct t; try discriminate.
      * destruct rest as [|[] rest']; try discriminate. eapply R2; reflexivity.
      * destruct or_end; [apply R | discriminate].
    + destruct st as [|[|] st']; try discriminate;
        destruct t; try discriminate; apply R.
Qed.

Lemma parse_text_not_abort (s : string) : parse_text s <> Aborted.
Proof.
  unfold parse_text. destruct (skip_bom s); [apply parse_tokens_not_abort | discriminate].
Qed.

Lemma bind_not_abort {A B : Type} (c : outcome A) (k : A -> outcome B) :
  c <> Aborted -> (forall a, k a <> Aborted) -> bind c k <> Aborted.
Proof. destruct c; simpl; intros H K; [apply K | discriminate | congruence]. Qed.

Lemma dump_escaped_not_abort (fuel : nat) :
  forall s, dump_escaped fuel s <> Aborted.
Proof.
  induction fuel as [|fuel IH]; intros s; simpl; [discriminate|].
  destruct s as [|a r]; [discriminate|].
  repeat match goal with
         | |- (if ?b then _ else _) <> _ => destruct b
         end;
    try (apply bind_not_abort; [apply IH | discriminate]).
  destruct (scan_utf8 a r) as [[bytes r1]|]; [|discriminate].
  apply bind_not_abort; [apply IH | discriminate].
Qed.

Lemma dump_string_not_abort (s : string) : dump_string s <> Aborted.
Proof.
  unfold dump_string.
  apply bind_not_abort; [apply dump_escaped_not_abort | discriminate].
Qed.

Lemma dump_json_not_abort : forall j, dump_json j <> Aborted.
Proof.
  fix IH 1. intros j. destruct j as [| [|] | z | tk | s | items | members]; simpl;
    try discriminate.
  - apply dump_string_not_abort.
  - apply bind_not_abort; [|discriminate].
    induction items as [|x l IHl]; [discriminate|].
    destruct l as [|y l']; [apply IH|].
    apply bind_not_abort; [apply IH|]. intros a.
    apply bind_not_abort; [apply IHl | discriminate].
  - assert (M : forall kv : string * json,
      (k <- dump_string (fst kv) ;; v <- dump_json (snd kv) ;; Ok (k ++ ":" ++ v))
      <> Aborted).
    { intros kv. apply bind_not_abort; [apply dump_string_not_abort|]. intros k.
      apply bind_not_abort; [apply IH | discriminate]. }
    apply bind_not_abort; [|discriminate].
    induction members as [|x l IHl]; [discriminate|].
    destruct l as [|y l']; [apply M|].
    apply bind_not_abort; [apply M|]. intros a.
    apply bind_not_abort; [apply IHl | discriminate].
Qed.

#[export] Instance nlohmann : JsonText := {
  parse := parse_text;
  dump := dump_json;
  what := what_prefix;
  parse_returns_or_throws := parse_text_not_abort;
  dump_returns_or_throws := dump_json_not_abort
}.

End Text.
Export Text.


(** The non-namespaced [LPLogipadClient] has the same members and the same
    method bodies. *)
Module LPLogipadClient := LogipadClient.

(** * Vocabulary of the statements, and the fixtures of the examples *)

(** The requests sent between two states of the world. *)
Definition issued (w w' : World) : list Request :=
  skipn (List.length (sent w)) (sent w').

(** The password-grant request of the token endpoint:
    POST /realms/{realm}/protocol/openid-connect/token, form-encoded. *)
Definition token_request (cli : SSLClient) (realm clientId username password : string)
  : Request :=
  {| session := cli; method := POST;
     path := c_str ("/realms/" ++ realm ++ "/protocol/openid-connect/token");
     headers := [];
     content := FormContent [("client_id", clientId); ("grant_type", "password");
                             ("password", password); ("username", username)] |}.

(** GET /users on the directory host, with the bearer header. *)
Definition users_request (token apiHost : string) (apiPort : Z) : Request :=
  {| session := make_client apiHost apiPort; method := GET; path := "/users";
     headers := [("Accept", "application/json"); ("Authorization", "Bearer " ++ token)];
     content := NoContent |}.

(** The user-creation request: POST /admin/realms/{realm}/users with a JSON
    text. *)
Definition is_creation_request (realm : string) (r : Request) : Prop :=
  method r = POST /\ path r = c_str ("/admin/realms/" ++ realm ++ "/users").

(** A member of an entry: nothing unless the entry is an object holding the
    key. *)
Definition field (e : json) (k : string) : option json :=
  match e with
  | JObject m => Json.find k m
  | _ => None
  end.

(** The two envelopes of a directory response: a top-level array, or an
    object with a [users] array. *)
Definition envelope (j : json) : option (list json) :=
  match j with
  | JArray entries => Some entries
  | JObject m =>
      match Json.find "users" m with
      | Some (JArray entries) => Some entries
      | _ => None
      end
  | _ => None
  end.

(** An optional attribute [o] of a record against the entry it was read
    from: set exactly when the entry holds the key with a non-null value, and
    then it is that value. *)
Definition optional_copied (e : json) (k : string) (o : option string) : Prop :=
  (o <> None <-> exists v, field e k = Some v /\ v <> JNull)
  /\ (forall s, o = Some s -> field e k = Some (JString s)).

(** A flag [b] of a record against its entry: the entry's value, or the
    default when the entry has none. *)
Definition flag_copied (e : json) (k : string) (dflt b : bool) : Prop :=
  match field e k with
  | Some v => v = JBool b
  | None => b = dflt
  end.

(** What the specification says of one entry [e] and its record [u]. *)
Definition entry_record (e : json) (u : LogipadClient.User) : Prop :=
  (forall v, field e "guid" = Some v -> v = JString (LogipadClient.guid u))
  /\ optional_copied e "created_at" (LogipadClient.created_at u)
  /\ optional_copied e "created_by" (LogipadClient.created_by u)
  /\ optional_copied e "modified_at" (LogipadClient.modified_at u)
  /\ optional_copied e "modified_by" (LogipadClient.modified_by u)
  /\ optional_copied e "last_login_at" (LogipadClient.last_login_at u)
  /\ optional_copied e "last_activity_at" (LogipadClient.last_activity_at u)
  /\ optional_copied e "last_document_service_activity"
       (LogipadClient.last_document_service_activity u)
  /\ optional_copied e "last_eform_service_activity"
       (LogipadClient.last_eform_service_activity u)
  /\ optional_copied e "last_briefing_service_activity"
       (LogipadClient.last_briefing_service_activity u)
  /\ optional_copied e "name" (LogipadClient.name u)
  /\ optional_copied e "type" (LogipadClient.type u)
  /\ optional_copied e "full_name" (LogipadClient.full_name u)
  /\ optional_copied e "email" (LogipadClient.email u)
  /\ optional_copied e "three_lc" (LogipadClient.three_lc u)
  /\ optional_copied e "department" (LogipadClient.department u)
  /\ optional_copied e "description" (LogipadClient.description u)
  /\ flag_copied e "is_active" true (LogipadClient.is_active u)
  /\ flag_copied e "is_reportable" false (LogipadClient.is_reportable u).

(** The guid of a record against its entry, as the code has it: the entry's
    string, or the empty string when the entry has no guid. *)
Definition guid_copied_or_empty (e : json) (u : LogipadClient.User) : Prop :=
  match field e "guid" with
  | Some v => v = JString (LogipadClient.guid u)
  | None => LogipadClient.guid u = ""
  end.








(** The credential block of a creation body carrying [value]. *)
Definition password_credential (value : string) : json :=
  JObject [("temporary", JBool true); ("type", JString "password");
           ("value", JString value)].

(** A text written with apostrophes where JSON has quotation marks. *)
Fixpoint json_text (s : string) : string :=
  match s with
  | String a r => String (if code a =? 39 then char 34 else a) (json_text r)
  | EmptyString => EmptyString
  end.

(** A world with nothing sent yet whose network answers every request with
    the same status and body. *)
Definition replying (code : Z) (text : string) : World :=
  {| network := fun _ _ => Some {| status := code; body := text |}; sent := [] |}.

(** A world with nothing sent yet in which no request gets a response. *)
Definition unreachable : World :=
  {| network := fun _ _ => None; sent := [] |}.

(** The directory client of the demonstration program, holding [token]. *)
Definition directory_client (token : string) : LogipadClient.t :=
  LogipadClient.set_accessToken
    (LogipadClient.make "keycloak-cloud.logipad.net" 443 "Logipad" "lpclient"
       "sysadm" "secret")
    token.

(** The runs the examples below look at: the directory client of the
    demonstration program, holding the token abc, against a directory that
    answers 200 with the given text. *)
Definition listing (text : string) : outcome bool * LogipadClient.Users * World :=
  LogipadClient.getAllUsers (directory_client "abc") {| LogipadClient.users := [] |}
    "identity.demo.prod.logipad.net" 443 (replying 200 (json_text text)).

(** A record of an earlier listing, to be found gone after the next one. *)
Definition stale_user : LogipadClient.User :=
  {| LogipadClient.guid := "old";
     LogipadClient.created_at := None; LogipadClient.created_by := None;
     LogipadClient.modified_at := None; LogipadClient.modified_by := None;
     LogipadClient.last_login_at := None; LogipadClient.last_activity_at := None;
     LogipadClient.last_document_service_activity := None;
     LogipadClient.last_eform_service_activity := None;
     LogipadClient.last_briefing_service_activity := None;
     LogipadClient.name := Some "Old"; LogipadClient.type := None;
     LogipadClient.full_name := None; LogipadClient.email := None;
     LogipadClient.three_lc := None; LogipadClient.department := None;
     LogipadClient.description := None;
     LogipadClient.is_active := true; LogipadClient.is_reportable := true |}.

(** The creation record of the demonstration program. *)
Definition demo_user (password : string) : KeycloakClient.UserInfo :=
  {| KeycloakClient.username := "aaaaa";
     KeycloakClient.email := "testuser@test.com";
     KeycloakClient.firstName := "Test";
     KeycloakClient.lastName := "User";
     KeycloakClient.password := password;
     KeycloakClient.enabled := true;
     KeycloakClient.emailVerified := true |}.

(** The identity-provider client of the demonstration program, holding
    [token]. *)
Definition provider_client (token : string) : KeycloakClient.t :=
  KeycloakClient.set_accessToken
    (KeycloakClient.make "keycloak-cloud.logipad.net" 443 "master" "admin-cli"
       "dd-admin" "secret")
    token.

(** The members of a creation body besides the credentials. *)
Definition profile_members (u : KeycloakClient.UserInfo) : list (string * json) :=
  [("email", JString (KeycloakClient.email u));
   ("emailVerified", JBool (KeycloakClient.emailVerified u));
   ("enabled", JBool (KeycloakClient.enabled u));
   ("firstName", JString (KeycloakClient.firstName u));
   ("lastName", JString (KeycloakClient.lastName u));
   ("username", JString (KeycloakClient.username u))].

(** The token request a client sends. *)
Definition token_request_of (c : KeycloakClient.t) : Request :=
  token_request (KeycloakClient.m_client c) (KeycloakClient.m_realm c)
    (KeycloakClient.m_clientId c) (KeycloakClient.m_username c)
    (KeycloakClient.m_password c).

(** Whether a client has both credentials. *)
Definition has_credentials (c : KeycloakClient.t) : bool :=
  negb (empty (KeycloakClient.m_username c) || empty (KeycloakClient.m_password c)).

(** The token requests [createUser] can send: the one of its lazy
    re-authentication, when no token is held and both credentials are. *)
Definition lazy_authentication (c : KeycloakClient.t) : list Request :=
  if empty (KeycloakClient.m_accessToken c) && has_credentials c
  then [token_request_of c] else [].

(** What [createUser] sends: first the token request of its lazy
    re-authentication, if any; then at most one more request, the POST of
    the dumped record to the user endpoint of [realm] over the client's
    session. The network itself is what it was. *)
Definition creation_log {text : JsonText} (c : KeycloakClient.t) (u : KeycloakClient.UserInfo)
  (realm : string) (w w' : World) : Prop :=
  network w' = network w
  /\ exists l,
       sent w' = (sent w ++ lazy_authentication c ++ l)%list
       /\ (l = []
           \/ exists j b hs,
                KeycloakClient.toJson u = Ok j /\ dump j = Ok b
                /\ empty (KeycloakClient.username u) = false
                /\ empty (KeycloakClient.email u) = false
                /\ l = [ {| session := KeycloakClient.m_client c; method := POST;
                           path := c_str ("/admin/realms/" ++ realm ++ "/users");
                           headers := hs;
                           content := TextContent b "application/json" |} ]).

(** The JSON value of a creation body: the profile members, and before them
    the credentials array when the record's password is not empty. Its one
    element carries the literal logipad, never the record's password. *)
Definition creation_value (u : KeycloakClient.UserInfo) : json :=
  JObject (if empty (KeycloakClient.password u) then profile_members u
           else ("credentials", JArray [password_credential "logipad"])
                :: profile_members u).

(** The creation request of the demonstration record with [password], as
    the client holding the token abc sends it. *)
Definition demo_creation_request (text : string) : Request :=
  {| session := KeycloakClient.m_client (provider_client "abc");
     method := POST;
     path := "/admin/realms/Logipad/users";
     headers := [("Accept", "application/json");
                 ("Authorization", "Bearer abc");
                 ("Content-Type", "application/json")];
     content := TextContent (json_text text) "application/json" |}.

(** A directory client and an identity-provider client set up alike: the
    same session, realm, client id and credentials. *)
Definition same_configuration (lc : LogipadClient.t) (kc : KeycloakClient.t) : Prop :=
  KeycloakClient.m_client kc = LogipadClient.m_httplibClient lc
  /\ KeycloakClient.m_realm kc = LogipadClient.m_realm lc
  /\ KeycloakClient.m_clientId kc = LogipadClient.m_clientId lc
  /\ KeycloakClient.m_username kc = LogipadClient.m_username lc
  /\ KeycloakClient.m_password kc = LogipadClient.m_password lc.

(** The identity-provider client set up like a directory client. *)
Definition provider_like (lc : LogipadClient.t) : KeycloakClient.t :=
  {| KeycloakClient.m_host := LogipadClient.m_host lc;
     KeycloakClient.m_port := LogipadClient.m_port lc;
     KeycloakClient.m_realm := LogipadClient.m_realm lc;
     KeycloakClient.m_clientId := LogipadClient.m_clientId lc;
     KeycloakClient.m_username := LogipadClient.m_username lc;
     KeycloakClient.m_password := LogipadClient.m_password lc;
     KeycloakClient.m_accessToken := "";
     KeycloakClient.m_lastError := "";
     KeycloakClient.m_client := LogipadClient.m_httplibClient lc |}.

(** A directory client whose embedded pointer holds [kc]; no statement of
    the source builds one. *)
Definition embedding (lc : LogipadClient.t) (kc : KeycloakClient.t) : LogipadClient.t :=
  {| LogipadClient.m_host := LogipadClient.m_host lc;
     LogipadClient.m_port := LogipadClient.m_port lc;
     LogipadClient.m_realm := LogipadClient.m_realm lc;
     LogipadClient.m_clientId := LogipadClient.m_clientId lc;
     LogipadClient.m_username := LogipadClient.m_username lc;
     LogipadClient.m_password := LogipadClient.m_password lc;
     LogipadClient.m_accessToken := LogipadClient.m_accessToken lc;
     LogipadClient.m_httplibClient := LogipadClient.m_httplibClient lc;
     LogipadClient.m_keycloakClient := Some kc |}.

(** What the specification says of [authenticate] on the directory client:
    there is an embedded client, the call is that client's call (same
    outcome, same effect on the world), the embedded client ends in the
    state its own call leaves, and the token of the directory client is the
    token of that state. *)
Definition mirrors_embedded {text : JsonText} (lc : LogipadClient.t) (w : World) : Prop :=
  exists kc,
    LogipadClient.m_keycloakClient lc = Some kc
    /\ fst (fst (LogipadClient.authenticate lc w))
       = fst (fst (KeycloakClient.authenticate kc w))
    /\ snd (LogipadClient.authenticate lc w) = snd (KeycloakClient.authenticate kc w)
    /\ LogipadClient.m_keycloakClient (snd (fst (LogipadClient.authenticate lc w)))
       = Some (snd (fst (KeycloakClient.authenticate kc w)))
    /\ LogipadClient.m_accessToken (snd (fst (LogipadClient.authenticate lc w)))
       = KeycloakClient.m_accessToken (snd (fst (KeycloakClient.authenticate kc w))).

(** The invariant of the specification: a client reports authenticated
    exactly when the token it stores is not empty. *)
Definition provider_invariant (c : KeycloakClient.t) : Prop :=
  KeycloakClient.isAuthenticated c = true <-> KeycloakClient.getAccessToken c <> "".

Definition directory_invariant (c : LogipadClient.t) : Prop :=
  LogipadClient.isAuthenticated c = true <-> LogipadClient.getAccessToken c <> "".

(** ** logipad::client::LogipadClient::User::toJson (and LPLogipadClient's) *)

Module User.

(** [if (o.has_value()) json[k] = o.value();] *)
Definition set_if_has_value (j : json) (k : string) (o : option string)
  : outcome json :=
  match o with
  | Some v => Json.set j k (JString v)
  | None => Ok j
  end.

(** [User::toJson]. *)
Definition toJson (u : LogipadClient.User) : outcome json :=
  json <- Json.set JNull "guid" (JString (LogipadClient.guid u)) ;;
  json <- set_if_has_value json "created_at" (LogipadClient.created_at u) ;;
  json <- set_if_has_value json "created_by" (LogipadClient.created_by u) ;;
  json <- set_if_has_value json "modified_at" (LogipadClient.modified_at u) ;;
  json <- set_if_has_value json "modified_by" (LogipadClient.modified_by u) ;;
  json <- set_if_has_value json "last_login_at" (LogipadClient.last_login_at u) ;;
  json <- set_if_has_value json "last_activity_at" (LogipadClient.last_activity_at u) ;;
  json <- set_if_has_value json "last_document_service_activity"
            (LogipadClient.last_document_service_activity u) ;;
  json <- set_if_has_value json "last_eform_service_activity"
            (LogipadClient.last_eform_service_activity u) ;;
  json <- set_if_has_value json "last_briefing_service_activity"
            (LogipadClient.last_briefing_service_activity u) ;;
  json <- set_if_has_value json "name" (LogipadClient.name u) ;;
  json <- set_if_has_value json "type" (LogipadClient.type u) ;;
  json <- set_if_has_value json "full_name" (LogipadClient.full_name u) ;;
  json <- set_if_has_value json "email" (LogipadClient.email u) ;;
  json <- set_if_has_value json "three_lc" (LogipadClient.three_lc u) ;;
  json <- set_if_has_value json "department" (LogipadClient.department u) ;;
  json <- set_if_has_value json "description" (LogipadClient.description u) ;;
  json <- Json.set json "is_active" (JBool (LogipadClient.is_active u)) ;;
  json <- Json.set json "is_reportable" (JBool (LogipadClient.is_reportable u)) ;;
  Ok json.

End User.

(** The member a user's JSON value has under a key: the guid, each optional
    attribute that is set, the two flags, and nothing under any other key. *)
Definition user_member (u : LogipadClient.User) (k : string) : option json :=
  if String.eqb k "guid" then Some (JString (LogipadClient.guid u))
  else if String.eqb k "created_at" then option_map JString (LogipadClient.created_at u)
  else if String.eqb k "created_by" then option_map JString (LogipadClient.created_by u)
  else if String.eqb k "modified_at" then option_map JString (LogipadClient.modified_at u)
  else if String.eqb k "modified_by" then option_map JString (LogipadClient.modified_by u)
  else if String.eqb k "last_login_at"
    then option_map JString (LogipadClient.last_login_at u)
  else if String.eqb k "last_activity_at"
    then option_map JString (LogipadClient.last_activity_at u)
  else if String.eqb k "last_document_service_activity"
    then option_map JString (LogipadClient.last_document_service_activity u)
  else if String.eqb k "last_eform_service_activity"
    then option_map JString (LogipadClient.last_eform_service_activity u)
  else if String.eqb k "last_briefing_service_activity"
    then option_map JString (LogipadClient.last_briefing_service_activity u)
  else if String.eqb k "name" then option_map JString (LogipadClient.name u)
  else if String.eqb k "type" then option_map JString (LogipadClient.type u)
  else if String.eqb k "full_name" then option_map JString (LogipadClient.full_name u)
  else if String.eqb k "email" then option_map JString (LogipadClient.email u)
  else if String.eqb k "three_lc" then option_map JString (LogipadClient.three_lc u)
  else if String.eqb k "department" then option_map JString (LogipadClient.department u)
  else if String.eqb k "description"
    then option_map JString (LogipadClient.description u)
  else if String.eqb k "is_active" then Some (JBool (LogipadClient.is_active u))
  else if String.eqb k "is_reportable" then Some (JBool (LogipadClient.is_reportable u))
  else None.

(** The first of two lookups that finds something. *)
Definition or_else (a b : option json) : option json :=
  match a with
  | Some x => Some x
  | None => b
  end.

(** [assign] under a condition: the members after [set_if_has_value]. *)
Definition assign_if_has_value (k : string) (o : option string)
  (m : list (string * json)) : list (string * json) :=
  match o with
  | Some v => Json.assign k (JString v) m
  | None => m
  end.

(** The record a non-object entry is read as: nothing copied, the two
    defaults. *)
Definition blank_user : LogipadClient.User :=
  {| LogipadClient.guid := "";
     LogipadClient.created_at := None; LogipadClient.created_by := None;
     LogipadClient.modified_at := None; LogipadClient.modified_by := None;
     LogipadClient.last_login_at := None; LogipadClient.last_activity_at := None;
     LogipadClient.last_document_service_activity := None;
     LogipadClient.last_eform_service_activity := None;
     LogipadClient.last_briefing_service_activity := None;
     LogipadClient.name := None; LogipadClient.type := None;
     LogipadClient.full_name := None; LogipadClient.email := None;
     LogipadClient.three_lc := None; LogipadClient.department := None;
     LogipadClient.description := None;
     LogipadClient.is_active := true; LogipadClient.is_reportable := false |}.

(** The network answers the token request [req] with a 200 response whose
    body is a JSON object carrying the string [s] as access_token. *)
Definition grants {text : JsonText} (w : World) (req : Request) (s : string) : Prop :=
  exists resp j,
    network w (sent w) req = Some resp
    /\ status resp = 200
    /\ parse (body resp) = Ok j
    /\ field j "access_token" = Some (JString s).

(** The token request of a directory client. *)
Definition directory_token_request (c : LogipadClient.t) : Request :=
  token_request (LogipadClient.m_httplibClient c) (LogipadClient.m_realm c)
    (LogipadClient.m_clientId c) (LogipadClient.m_username c)
    (LogipadClient.m_password c).

(** What [createUser] appends to its message for a status that is neither
    201 nor 409: nothing for an empty body; the errorMessage of a body that
    is a JSON object with a string under that key; else the body itself. *)
Definition error_detail {text : JsonText} (body : string) : string :=
  if empty body then ""
  else match parse body with
       | Ok j =>
           match field j "errorMessage" with
           | Some (JString s) => " - " ++ s
           | _ => " - " ++ body
           end
       | _ => " - " ++ body
       end.

(** The user-creation request of a client for a record's dumped text. *)
Definition creation_request (c : KeycloakClient.t) (realm text : string) : Request :=
  {| session := KeycloakClient.m_client c; method := POST;
     path := c_str ("/admin/realms/" ++ realm ++ "/users");
     headers := KeycloakClient.getAuthHeaders c;
     content := TextContent text "application/json" |}.

(** How the answer to the creation request decides what [createUser]
    returns and the message it leaves in the client [c']. *)
Definition creation_answer {text : JsonText} (c' : KeycloakClient.t)
  (u : KeycloakClient.UserInfo) (r : outcome bool) (answer : Result) : Prop :=
  match answer with
  | None =>
      r = Ok false /\ KeycloakClient.m_lastError c' = "Request failed to create user"
  | Some resp =>
      if status resp =? 201 then r = Ok true /\ KeycloakClient.m_lastError c' = ""
      else if status resp =? 409 then
        r = Ok false
        /\ KeycloakClient.m_lastError c'
           = "User with username '" ++ KeycloakClient.username u ++ "' already exists"
      else
        r = Ok false
        /\ KeycloakClient.m_lastError c'
           = "Failed to create user. Status: " ++ to_string (status resp)
             ++ error_detail (body resp)
  end.

(** The three ways a call of [createUser] can go, [r], [c'] and [w'] being
    what it returns: it stops before the creation request (not
    authenticated, or a record without username or email) with false and a
    message; the dump of the record throws; or the creation request is sent
    and its answer decides. Before any of this comes the token request of
    the lazy re-authentication, if there is one. *)
Definition creation_run {text : JsonText} (c : KeycloakClient.t)
  (u : KeycloakClient.UserInfo) (realm : string) (w : World)
  (r : outcome bool) (c' : KeycloakClient.t) (w' : World) : Prop :=
  network w' = network w
  /\ ((sent w' = (sent w ++ lazy_authentication c)%list
       /\ r = Ok false
       /\ KeycloakClient.m_lastError c' <> ""
       /\ (fst (fst (KeycloakClient.ensureAuthenticated
                       (KeycloakClient.set_lastError c "") w)) = Ok false
           \/ empty (KeycloakClient.username u) = true
           \/ empty (KeycloakClient.email u) = true))
      \/ (sent w' = (sent w ++ lazy_authentication c)%list
          /\ exists e, dump (creation_value u) = Throw e /\ r = Throw e)
      \/ (exists b,
            dump (creation_value u) = Ok b
            /\ empty (KeycloakClient.username u) = false
            /\ empty (KeycloakClient.email u) = false
            /\ sent w'
               = (sent w ++ lazy_authentication c ++ [creation_request c' realm b])%list
            /\ KeycloakClient.m_client c' = KeycloakClient.m_client c
            /\ creation_answer c' u r
                 (network w (sent w ++ lazy_authentication c)
                    (creation_request c' realm b)))).

(** * What the clients do *)

(** ** Reading a directory response *)

Lemma bind_Ok {A B : Type} (c : outcome A) (k : A -> outcome B) (b : B) :
  bind c k = Ok b -> exists a, c = Ok a /\ k a = Ok b.
Proof. destruct c; simpl; intros H; [eauto | discriminate | discriminate]. Qed.

Ltac bind_inv H :=
  let a := fresh "a" in
  let E := fresh "E" in
  apply bind_Ok in H; destruct H as (a & E & H).

Lemma optional_field_spec (e : json) (k : string) (o : option string) :
  LogipadClient.optional_field e k = Ok o -> optional_copied e k o.
Proof.
  unfold LogipadClient.optional_field, optional_copied, Json.contains, Json.at_const, field.
  assert (N : forall P : Prop, ((@None string <> None) <-> P) <-> ~ P)
    by (intros P; split; [intros [_ H] p; now apply H | intros np; split; tauto]).
  destruct e as [| | | | | |m];
    try (intros H; injection H as <-; split;
         [apply N; intros (v & F & _); discriminate | discriminate]).
  destruct (Json.find k m) as [v|] eqn:F; simpl.
  - destruct v; simpl; intros H; try discriminate; injection H as <-.
    + split; [apply N; intros (v & Fv & nz); injection Fv as <-; now apply nz
             | discriminate].
    + split.
      * split; [intros _; eexists; split; [reflexivity | discriminate]
               | discriminate].
      * intros s' Hs; injection Hs as <-; reflexivity.
  - intros H; injection H as <-; split;
      [apply N; intros (v & Fv & _); discriminate | discriminate].
Qed.

Lemma boolean_field_spec (e : json) (k : string) (dflt b : bool) :
  LogipadClient.boolean_field e k dflt = Ok b -> flag_copied e k dflt b.
Proof.
  unfold LogipadClient.boolean_field, flag_copied, Json.contains, Json.at_const, field.
  destruct e as [| | | | | |m]; try (intros H; injection H as <-; reflexivity).
  destruct (Json.find k m) as [v|]; simpl.
  - destruct v; simpl; intros H; try discriminate. injection H as <-; reflexivity.
  - intros H; injection H as <-; reflexivity.
Qed.

Lemma read_guid_spec (e : json) (g : string) :
  (if Json.contains e "guid"
   then v <- Json.at_const e "guid" ;; Json.get_string v
   else Ok "") = Ok g ->
  match field e "guid" with
  | Some v => v = JString g
  | None => g = ""
  end.
Proof.
  unfold Json.contains, Json.at_const, field.
  destruct e as [| | | | | |m]; try (intros H; injection H as <-; reflexivity).
  destruct (Json.find "guid" m) as [v|]; simpl.
  - destruct v; simpl; intros H; try discriminate. injection H as <-; reflexivity.
  - intros H; injection H as <-; reflexivity.
Qed.

Lemma read_user_spec (e : json) (u : LogipadClient.User) :
  LogipadClient.read_user e = Ok u ->
  entry_record e u /\ guid_copied_or_empty e u.
Proof.
  unfold LogipadClient.read_user. intros H.
  bind_inv H. apply read_guid_spec in E.
  do 16 (let E' := fresh "O" in
         apply bind_Ok in H; destruct H as (? & E' & H);
         apply optional_field_spec in E').
  do 2 (let E' := fresh "B" in
        apply bind_Ok in H; destruct H as (? & E' & H);
        apply boolean_field_spec in E').
  injection H as <-. unfold entry_record, guid_copied_or_empty; simpl.
  repeat match goal with |- _ /\ _ => split end; try assumption.
  intros v Fv. rewrite Fv in E. exact E.
Qed.






(** The loop pushes one record per entry, in order, behind what the
    collection held, and stops at the first entry that cannot be read. *)
Lemma read_users_spec (entries : list json) :
  forall us r us',
    LogipadClient.read_users entries us = (r, us') ->
    exists n new,
      LogipadClient.users us' = (LogipadClient.users us ++ new)%list
      /\ Forall2 (fun e u => LogipadClient.read_user e = Ok u) (firstn n entries) new
      /\ (r = Ok tt -> n = List.length entries)
      /\ (r <> Ok tt -> (n < List.length entries)%nat).
Proof.
  induction entries as [|e rest IH]; intros us r us' H; simpl in H.
  - injection H as <- <-. exists 0%nat, []. rewrite app_nil_r.
    repeat split; [constructor | congruence].
  - destruct (LogipadClient.read_user e) as [u| |] eqn:R.
    + apply IH in H. destruct H as (n & new & U & F & L & L').
      exists (S n), (u :: new). simpl in U. rewrite <- app_assoc in U.
      repeat split; [exact U | simpl; constructor; assumption
                    | intros; simpl; f_equal; auto
                    | intros; simpl; apply (proj1 (PeanoNat.Nat.succ_lt_mono _ _)); auto].
    + injection H as <- <-. exists 0%nat, []. rewrite app_nil_r.
      repeat split; [constructor | discriminate | simpl; lia].
    + injection H as <- <-. exists 0%nat, []. rewrite app_nil_r.
      repeat split; [constructor | discriminate | simpl; lia].
Qed.

(** The header container of [getAllUsers]: Accept comes before
    Authorization, whatever the order of the initializer list. *)
Lemma make_headers_bearer (token : string) :
  make_headers [("Authorization", token); ("Accept", "application/json")]
  = [("Accept", "application/json"); ("Authorization", token)].
Proof. reflexivity. Qed.


Section Directory.
Context {text : JsonText}.

(** What [getAllUsers] does with a token and a 200 response whose body
    parses: the request is sent, the envelope's entries are read in order,
    and a shape that is no envelope is a success with nothing read. *)
Lemma getAllUsers_parsed (c : LogipadClient.t) (us : LogipadClient.Users)
  (apiHost : string) (apiPort : Z) (w : World) (resp : Response) (j : json) :
  let req := users_request (LogipadClient.m_accessToken c) apiHost apiPort in
  empty (LogipadClient.m_accessToken c) = false ->
  network w (sent w) req = Some resp ->
  status resp = 200 ->
  parse (body resp) = Ok j ->
  LogipadClient.getAllUsers c us apiHost apiPort w =
  match envelope j with
  | Some entries =>
      match LogipadClient.read_users entries {| LogipadClient.users := [] |} with
      | (Ok _, us') => (Ok true, us', snd (send req w))
      | (Throw _, us') => (Ok false, us', snd (send req w))
      | (Aborted, us') => (Aborted, us', snd (send req w))
      end
  | None => (Ok true, {| LogipadClient.users := [] |}, snd (send req w))
  end.
Proof.
  intros req T N S P.
  unfold req, users_request in *. clear req.
  unfold LogipadClient.getAllUsers, Get, send. rewrite T, make_headers_bearer.
  rewrite N. cbv beta iota. rewrite S. cbv beta iota.
  change (200 =? 200) with true. cbv beta iota. rewrite P.
  destruct j as [| | | | | entries | m]; try reflexivity.
  simpl. destruct (Json.find "users" m) as [v|]; [|reflexivity].
  destruct v; reflexivity.
Qed.

End Directory.

Section DirectoryClaims.
Context {text : JsonText}.

(** C6. With an empty access token [getAllUsers] returns false, hands back an
    empty collection and leaves the world as it found it: no request is
    sent, so in particular none to the token endpoint; no member of the
    client is written either, the call having no other result. *)
Theorem C6_getAllUsers_without_token (c : LogipadClient.t)
  (us : LogipadClient.Users) (apiHost : string) (apiPort : Z) (w : World) :
  empty (LogipadClient.m_accessToken c) = true ->
  LogipadClient.getAllUsers c us apiHost apiPort w
  = (Ok false, {| LogipadClient.users := [] |}, w).
Proof.
  intros T. unfold LogipadClient.getAllUsers. rewrite T. reflexivity.
Qed.

(** C10. A 200 response whose body is valid JSON but neither an array nor an
    object with a [users] array is reported as a success: [getAllUsers]
    returns true, the collection is empty, and the one request sent is the
    GET of /users. *)
Theorem C10_unrecognised_shape_is_success (c : LogipadClient.t)
  (us : LogipadClient.Users) (apiHost : string) (apiPort : Z) (w : World)
  (resp : Response) (j : json) :
  empty (LogipadClient.m_accessToken c) = false ->
  network w (sent w) (users_request (LogipadClient.m_accessToken c) apiHost apiPort)
  = Some resp ->
  status resp = 200 ->
  parse (body resp) = Ok j ->
  envelope j = None ->
  LogipadClient.getAllUsers c us apiHost apiPort w
  = (Ok true, {| LogipadClient.users := [] |},
     {| network := network w;
        sent := sent w
                ++ [users_request (LogipadClient.m_accessToken c) apiHost apiPort] |}).
Proof.
  intros T N S P E.
  rewrite (getAllUsers_parsed c us apiHost apiPort w resp j T N S P), E.
  reflexivity.
Qed.

(** The records of a run that got a parsed 200 response are read off the
    entries of its envelope, in order: all of them when the call returns
    true, the ones before the first unreadable entry otherwise. *)
Lemma getAllUsers_reads_entries (c : LogipadClient.t) (us : LogipadClient.Users)
  (apiHost : string) (apiPort : Z) (w : World) (resp : Response) (j : json)
  (entries : list json) (r : outcome bool) (us' : LogipadClient.Users) (w' : World) :
  network w (sent w) (users_request (LogipadClient.m_accessToken c) apiHost apiPort)
  = Some resp ->
  status resp = 200 ->
  parse (body resp) = Ok j ->
  envelope j = Some entries ->
  LogipadClient.getAllUsers c us apiHost apiPort w = (r, us', w') ->
  exists n,
    Forall2 (fun e u => LogipadClient.read_user e = Ok u)
      (firstn n entries) (LogipadClient.users us')
    /\ (r = Ok true -> n = List.length entries).
Proof.
  intros N S P E H.
  destruct (empty (LogipadClient.m_accessToken c)) eqn:T.
  - unfold LogipadClient.getAllUsers in H. rewrite T in H.
    injection H as <- <- <-. exists 0%nat. split; [constructor | discriminate].
  - rewrite (getAllUsers_parsed c us apiHost apiPort w resp j T N S P), E in H.
    destruct (LogipadClient.read_users entries {| LogipadClient.users := [] |})
      as [o us1] eqn:R.
    apply read_users_spec in R. destruct R as (n & new & U & F & L & L').
    simpl in U. exists n.
    assert (U' : LogipadClient.users us' = new)
      by (destruct o; injection H as <- <- <-; exact U).
    rewrite U'. split; [exact F|].
    intros ->. destruct o as [[]| |]; [auto | |]; discriminate.
Qed.

(** C4. When [getAllUsers] succeeds on a 200 response whose body is one of
    the two envelopes, the collection it hands back holds exactly one record
    per entry, in the order of the entries, whatever it held before; in each
    record the guid is the entry's, each of the fourteen optional attributes
    is set exactly when the entry has the key with a non-null value (and is
    that value), and the two flags are the entry's or their defaults, true
    for is_active and false for is_reportable. *)
Theorem C4_getAllUsers_maps_every_entry (c : LogipadClient.t)
  (us : LogipadClient.Users) (apiHost : string) (apiPort : Z) (w : World)
  (resp : Response) (j : json) (entries : list json)
  (us' : LogipadClient.Users) (w' : World) :
  network w (sent w) (users_request (LogipadClient.m_accessToken c) apiHost apiPort)
  = Some resp ->
  status resp = 200 ->
  parse (body resp) = Ok j ->
  envelope j = Some entries ->
  LogipadClient.getAllUsers c us apiHost apiPort w = (Ok true, us', w') ->
  Forall2 entry_record entries (LogipadClient.users us').
Proof.
  intros N S P E H.
  destruct (getAllUsers_reads_entries _ _ _ _ _ _ _ _ _ _ _ N S P E H) as (n & F & L).
  rewrite (L eq_refl), firstn_all in F.
  eapply Forall2_impl; [|exact F].
  intros e u R. apply (read_user_spec e u R).
Qed.



End DirectoryClaims.

(** The instance runs: the two sample bodies of the specification. *)
Example getAllUsers_array_of_one :
  listing "[{'guid':'g1'}]"
  = (Ok true,
     {| LogipadClient.users :=
          [ {| LogipadClient.guid := "g1";
               LogipadClient.created_at := None; LogipadClient.created_by := None;
               LogipadClient.modified_at := None; LogipadClient.modified_by := None;
               LogipadClient.last_login_at := None;
               LogipadClient.last_activity_at := None;
               LogipadClient.last_document_service_activity := None;
               LogipadClient.last_eform_service_activity := None;
               LogipadClient.last_briefing_service_activity := None;
               LogipadClient.name := None; LogipadClient.type := None;
               LogipadClient.full_name := None; LogipadClient.email := None;
               LogipadClient.three_lc := None; LogipadClient.department := None;
               LogipadClient.description := None;
               LogipadClient.is_active := true;
               LogipadClient.is_reportable := false |} ] |},
     {| network := network (replying 200 (json_text "[{'guid':'g1'}]"));
        sent := [users_request "abc" "identity.demo.prod.logipad.net" 443] |}).
Proof. reflexivity. Qed.

Example getAllUsers_users_member :
  fst (listing "{'users':[{'guid':'g2','email':'a@b.com','is_active':false}]}")
  = (Ok true,
     {| LogipadClient.users :=
          [ {| LogipadClient.guid := "g2";
               LogipadClient.created_at := None; LogipadClient.created_by := None;
               LogipadClient.modified_at := None; LogipadClient.modified_by := None;
               LogipadClient.last_login_at := None;
               LogipadClient.last_activity_at := None;
               LogipadClient.last_document_service_activity := None;
               LogipadClient.last_eform_service_activity := None;
               LogipadClient.last_briefing_service_activity := None;
               LogipadClient.name := None; LogipadClient.type := None;
               LogipadClient.full_name := None; LogipadClient.email := Some "a@b.com";
               LogipadClient.three_lc := None; LogipadClient.department := None;
               LogipadClient.description := None;
               LogipadClient.is_active := false;
               LogipadClient.is_reportable := false |} ] |}).
Proof. reflexivity. Qed.

(** C6 at the client of the demonstration program before it authenticated,
    a collection that still holds a record, and a directory that would
    answer. *)
Lemma C6_witness :
  LogipadClient.getAllUsers (directory_client "")
    {| LogipadClient.users := [stale_user] |}
    "identity.demo.prod.logipad.net" 443 (replying 200 (json_text "[{'guid':'g1'}]"))
  = (Ok false, {| LogipadClient.users := [] |},
     replying 200 (json_text "[{'guid':'g1'}]")).
Proof.
  apply (C6_getAllUsers_without_token (text := nlohmann)). reflexivity.
Defined.

(** C10 at a body that is an object without a [users] member. *)
Lemma C10_witness :
  parse (json_text "{'total':0}") = Ok (JObject [("total", JInt 0)])
  /\ LogipadClient.getAllUsers (directory_client "abc")
       {| LogipadClient.users := [stale_user] |}
       "identity.demo.prod.logipad.net" 443 (replying 200 (json_text "{'total':0}"))
     = (Ok true, {| LogipadClient.users := [] |},
        {| network := network (replying 200 (json_text "{'total':0}"));
           sent := [users_request "abc" "identity.demo.prod.logipad.net" 443] |}).
Proof.
  split; [reflexivity|].
  apply (C10_unrecognised_shape_is_success (text := nlohmann)
           (directory_client "abc") {| LogipadClient.users := [stale_user] |}
           "identity.demo.prod.logipad.net" 443
           (replying 200 (json_text "{'total':0}"))
           {| status := 200; body := json_text "{'total':0}" |}
           (JObject [("total", JInt 0)])); reflexivity.
Defined.

(** C4 at the second sample body of the specification. *)
Lemma C4_witness :
  Forall2 entry_record
    [JObject [("email", JString "a@b.com"); ("guid", JString "g2");
              ("is_active", JBool false)]]
    (LogipadClient.users
       (snd (fst (listing
          "{'users':[{'guid':'g2','email':'a@b.com','is_active':false}]}")))).
Proof.
  apply (C4_getAllUsers_maps_every_entry (text := nlohmann)
           (directory_client "abc") {| LogipadClient.users := [] |}
           "identity.demo.prod.logipad.net" 443
           (replying 200
              (json_text "{'users':[{'guid':'g2','email':'a@b.com','is_active':false}]}"))
           {| status := 200;
              body := json_text
                "{'users':[{'guid':'g2','email':'a@b.com','is_active':false}]}" |}
           (JObject [("users",
              JArray [JObject [("email", JString "a@b.com"); ("guid", JString "g2");
                               ("is_active", JBool false)]])])
           [JObject [("email", JString "a@b.com"); ("guid", JString "g2");
                     ("is_active", JBool false)]]
           (snd (fst (listing
              "{'users':[{'guid':'g2','email':'a@b.com','is_active':false}]}")))
           (snd (listing
              "{'users':[{'guid':'g2','email':'a@b.com','is_active':false}]}")));
    reflexivity.
Defined.



(** ** The identity-provider client *)

(** [toJson] never throws, and this is the value it builds. *)
Lemma toJson_value (u : KeycloakClient.UserInfo) :
  KeycloakClient.toJson u
  = Ok (JObject
          (if empty (KeycloakClient.password u) then profile_members u
           else ("credentials", JArray [password_credential "logipad"])
                :: profile_members u)).
Proof.
  unfold KeycloakClient.toJson.
  destruct (empty (KeycloakClient.password u)); reflexivity.
Qed.

(** Case analysis on the answer of the network to the request in the goal. *)
(** The form of the token request: the container keeps the four fields by
    name, password before username. *)
Lemma token_params (clientId username password : string) :
  emplace less "password" password
    (emplace less "username" username
       (emplace less "grant_type" "password"
          (emplace less "client_id" clientId [])))
  = [("client_id", clientId); ("grant_type", "password");
     ("password", password); ("username", username)].
Proof. reflexivity. Qed.

(** The headers of [getAuthHeaders], by name. *)
Lemma getAuthHeaders_value (c : KeycloakClient.t) :
  KeycloakClient.getAuthHeaders c
  = ([("Accept", "application/json")]
     ++ (if empty (KeycloakClient.m_accessToken c) then []
         else [("Authorization", ("Bearer " ++ KeycloakClient.m_accessToken c)%string)])
     ++ [("Content-Type", "application/json")])%list.
Proof.
  unfold KeycloakClient.getAuthHeaders.
  destruct (empty (KeycloakClient.m_accessToken c)); reflexivity.
Qed.

Ltac on_answer r0 :=
  match goal with
  | |- context [network ?w ?h ?r] => destruct (network w h r) as [r0|]
  end.

Section Provider.
Context {text : JsonText}.

(** [authenticate] always returns: whatever the response, no exception
    leaves it. *)
Lemma kc_authenticate_returns (c : KeycloakClient.t) (w : World) :
  exists b, fst (fst (KeycloakClient.authenticate c w)) = Ok b.
Proof.
  unfold KeycloakClient.authenticate, Post_form, send.
  cbn [KeycloakClient.m_username KeycloakClient.m_password
       KeycloakClient.set_accessToken KeycloakClient.set_lastError].
  destruct (empty (KeycloakClient.m_username c) || empty (KeycloakClient.m_password c));
    [eexists; reflexivity|].
  on_answer r0;
    [|eexists; reflexivity].
  destruct (status r0 =? 200); [|eexists; reflexivity].
  destruct (parse (body r0)) as [j|e|] eqn:P;
    [| eexists; reflexivity | exfalso; exact (parse_returns_or_throws _ P)].
  simpl. destruct j as [| | | | | |m]; try (eexists; reflexivity).
  simpl. destruct (Json.find "access_token" m) as [v|]; [|eexists; reflexivity].
  simpl. destruct v; eexists; reflexivity.
Qed.

(** The world after [authenticate]: untouched without credentials, else
    with the token request sent. *)
Lemma kc_authenticate_world (c : KeycloakClient.t) (w : World) :
  snd (KeycloakClient.authenticate c w)
  = if has_credentials c then snd (send (token_request_of c) w) else w.
Proof.
  unfold KeycloakClient.authenticate, has_credentials, token_request_of,
    token_request, Post_form, send.
  cbn [KeycloakClient.m_username KeycloakClient.m_password KeycloakClient.m_realm
       KeycloakClient.m_clientId KeycloakClient.m_client
       KeycloakClient.set_accessToken KeycloakClient.set_lastError app negb].
  rewrite token_params.
  destruct (empty (KeycloakClient.m_username c) || empty (KeycloakClient.m_password c));
    [reflexivity|].
  cbn [negb].
  on_answer r0;
    [|reflexivity].
  destruct (status r0 =? 200); [|reflexivity].
  destruct (parse (body r0)) as [j|e|];
    [| reflexivity | reflexivity].
  simpl. destruct j as [| | | | | |m]; try reflexivity.
  simpl. destruct (Json.find "access_token" m) as [v|]; [|reflexivity].
  simpl. destruct v; reflexivity.
Qed.

(** Unless [authenticate] returns true, the token it leaves is empty. *)
Lemma kc_authenticate_failed_token (c : KeycloakClient.t) (w : World) :
  fst (fst (KeycloakClient.authenticate c w)) <> Ok true ->
  KeycloakClient.m_accessToken (snd (fst (KeycloakClient.authenticate c w))) = "".
Proof.
  unfold KeycloakClient.authenticate, Post_form, send.
  cbn [KeycloakClient.m_username KeycloakClient.m_password
       KeycloakClient.set_accessToken KeycloakClient.set_lastError].
  destruct (empty (KeycloakClient.m_username c) || empty (KeycloakClient.m_password c));
    [reflexivity|].
  on_answer r0;
    [|reflexivity].
  destruct (status r0 =? 200).
  - destruct (parse (body r0)) as [j|e|]; [| reflexivity | reflexivity].
    simpl. destruct j as [| | | | | |m]; try reflexivity.
    simpl. destruct (Json.find "access_token" m) as [v|]; [|reflexivity].
    simpl. destruct v; try reflexivity. simpl. intros H. now elim H.
  - destruct (negb (empty (body r0))); reflexivity.
Qed.

(** Running [authenticate] is running it on the state with the token
    cleared: the token held before plays no part. *)
Lemma kc_authenticate_forgets_token (c : KeycloakClient.t) (t : string) (w : World) :
  KeycloakClient.authenticate (KeycloakClient.set_accessToken c t) w
  = KeycloakClient.authenticate c w.
Proof. reflexivity. Qed.

End Provider.

Lemma issued_app (w w' : World) (l : list Request) :
  sent w' = (sent w ++ l)%list -> issued w w' = l.
Proof.
  intros H. unfold issued. rewrite H, skipn_app, skipn_all, PeanoNat.Nat.sub_diag.
  reflexivity.
Qed.

Lemma token_request_is_no_creation (cli : SSLClient)
  (realm' clientId username password realm : string) :
  ~ is_creation_request realm (token_request cli realm' clientId username password).
Proof. intros [_ P]. simpl in P. discriminate. Qed.

Section ProviderCreate.
Context {text : JsonText}.

Lemma ensureAuthenticated_returns (c : KeycloakClient.t) (w : World) :
  exists b, fst (fst (KeycloakClient.ensureAuthenticated c w)) = Ok b.
Proof.
  unfold KeycloakClient.ensureAuthenticated.
  destruct (empty (KeycloakClient.m_accessToken c));
    [apply kc_authenticate_returns | eexists; reflexivity].
Qed.

Lemma ensureAuthenticated_world (c : KeycloakClient.t) (w : World) :
  snd (KeycloakClient.ensureAuthenticated c w)
  = {| network := network w; sent := sent w ++ lazy_authentication c |}.
Proof.
  unfold KeycloakClient.ensureAuthenticated, lazy_authentication.
  destruct (empty (KeycloakClient.m_accessToken c)); simpl.
  - rewrite kc_authenticate_world. destruct (has_credentials c); simpl;
      [reflexivity | rewrite app_nil_r; destruct w; reflexivity].
  - rewrite app_nil_r; destruct w; reflexivity.
Qed.

(** The session, realm, client id and credentials of a client are what they
    were before [ensureAuthenticated]. *)
Lemma ensureAuthenticated_session (c : KeycloakClient.t) (w : World) :
  KeycloakClient.m_client (snd (fst (KeycloakClient.ensureAuthenticated c w)))
  = KeycloakClient.m_client c.
Proof.
  unfold KeycloakClient.ensureAuthenticated.
  destruct (empty (KeycloakClient.m_accessToken c)); [|reflexivity].
  unfold KeycloakClient.authenticate, Post_form, send.
  cbn [KeycloakClient.m_username KeycloakClient.m_password
       KeycloakClient.set_accessToken KeycloakClient.set_lastError].
  destruct (empty (KeycloakClient.m_username c) || empty (KeycloakClient.m_password c));
    [reflexivity|].
  on_answer r0;
    [|reflexivity].
  destruct (status r0 =? 200).
  - destruct (parse (body r0)) as [j|e|]; [| reflexivity | reflexivity].
    simpl. destruct j as [| | | | | |m]; try reflexivity.
    simpl. destruct (Json.find "access_token" m) as [v|]; [|reflexivity].
    simpl. destruct v; reflexivity.
  - destruct (negb (empty (body r0))); reflexivity.
Qed.

Lemma createUser_world (c : KeycloakClient.t) (u : KeycloakClient.UserInfo)
  (realm : string) (w : World) :
  creation_log c u realm w (snd (KeycloakClient.createUser c u realm w)).
Proof.
  unfold KeycloakClient.createUser.
  pose proof (ensureAuthenticated_returns (KeycloakClient.set_lastError c "") w) as [a Ha].
  pose proof (ensureAuthenticated_world (KeycloakClient.set_lastError c "") w) as Hw.
  pose proof (ensureAuthenticated_session (KeycloakClient.set_lastError c "") w) as Hs.
  change (lazy_authentication (KeycloakClient.set_lastError c ""))
    with (lazy_authentication c) in Hw.
  destruct (KeycloakClient.ensureAuthenticated (KeycloakClient.set_lastError c "") w)
    as [[o c1] w1].
  simpl in Ha, Hw, Hs. subst o w1.
  assert (Stop : forall (r : outcome bool) (c' : KeycloakClient.t),
    creation_log c u realm w
      (snd (r, c', {| network := network w;
                      sent := sent w ++ lazy_authentication c |}))).
  { intros r c'. split; [reflexivity|]. exists []. rewrite app_nil_r.
    split; [reflexivity | left; reflexivity]. }
  destruct a; [|apply Stop].
  destruct (empty (KeycloakClient.username u)) eqn:Eu; [apply Stop|].
  destruct (empty (KeycloakClient.email u)) eqn:Ee; [apply Stop|].
  destruct (KeycloakClient.toJson u) as [j| |] eqn:Ej; [|apply Stop|apply Stop].
  cbn [bind].
  destruct (dump j) as [b| |] eqn:Eb; [|apply Stop|apply Stop].
  unfold Post, send. cbn [network sent].
  assert (Sent : forall (r : outcome bool) (c' : KeycloakClient.t),
    creation_log c u realm w
      (snd (r, c',
        {| network := network w;
           sent := (sent w ++ lazy_authentication c) ++
                   [ {| session := KeycloakClient.m_client c1; method := POST;
                        path := c_str ("/admin/realms/" ++ realm ++ "/users");
                        headers := KeycloakClient.getAuthHeaders c1;
                        content := TextContent b "application/json" |} ] |}))).
  { intros r c'. split; [reflexivity|]. eexists. cbn [snd sent].
    rewrite <- app_assoc. split; [reflexivity|].
    right. exists j, b, (KeycloakClient.getAuthHeaders c1). rewrite Hs.
    repeat split; assumption. }
  on_answer r0;
    [|apply Sent].
  destruct (status r0 =? 201); [apply Sent|].
  destruct (status r0 =? 409); [apply Sent|].
  destruct (negb (empty (body r0))); [|apply Sent].
  match goal with |- context [match ?x with Ok _ => _ | _ => _ end] => destruct x end;
    apply Sent.
Qed.

End ProviderCreate.

Section ProviderClaims.
Context {text : JsonText}.

Lemma createUser_invalid_returns_false (c : KeycloakClient.t)
  (u : KeycloakClient.UserInfo) (realm : string) (w : World) :
  empty (KeycloakClient.username u) || empty (KeycloakClient.email u) = true ->
  fst (fst (KeycloakClient.createUser c u realm w)) = Ok false.
Proof.
  intros I. unfold KeycloakClient.createUser.
  pose proof (ensureAuthenticated_returns (KeycloakClient.set_lastError c "") w) as [a Ha].
  destruct (KeycloakClient.ensureAuthenticated (KeycloakClient.set_lastError c "") w)
    as [[o c1] w1].
  simpl in Ha. subst o. destruct a; [|reflexivity].
  destruct (empty (KeycloakClient.username u)); [reflexivity|].
  destruct (empty (KeycloakClient.email u)); [reflexivity | discriminate I].
Qed.

(** C5, as the code has it. For a record whose username or email is empty,
    [createUser] returns false and never sends the user-creation POST. What
    it sends is settled before the record is looked at: nothing when a token
    is held (or a credential is missing), and otherwise the one token
    request of its lazy re-authentication. *)
Theorem C5_invalid_record_sends_no_creation_request (c : KeycloakClient.t)
  (u : KeycloakClient.UserInfo) (realm : string) (w : World) :
  empty (KeycloakClient.username u) || empty (KeycloakClient.email u) = true ->
  fst (fst (KeycloakClient.createUser c u realm w)) = Ok false
  /\ network (snd (KeycloakClient.createUser c u realm w)) = network w
  /\ sent (snd (KeycloakClient.createUser c u realm w))
     = (sent w ++ lazy_authentication c)%list
  /\ (empty (KeycloakClient.m_accessToken c) = false ->
      sent (snd (KeycloakClient.createUser c u realm w)) = sent w)
  /\ (forall req,
        In req (issued w (snd (KeycloakClient.createUser c u realm w))) ->
        ~ is_creation_request realm req).
Proof.
  intros I. split; [apply createUser_invalid_returns_false; exact I|].
  destruct (createUser_world c u realm w) as (N & l & S & L).
  assert (l = []) as ->.
  { destruct L as [L | (j & b & hs & _ & _ & Eu & Ee & _)]; [exact L|].
    rewrite Eu, Ee in I. discriminate I. }
  rewrite app_nil_r in S.
  repeat split; [exact N | exact S | |].
  - intros T. rewrite S. unfold lazy_authentication. rewrite T. apply app_nil_r.
  - intros req Hin. rewrite (issued_app _ _ _ S) in Hin.
    unfold lazy_authentication in Hin.
    destruct (empty (KeycloakClient.m_accessToken c) && has_credentials c);
      [|contradiction].
    destruct Hin as [<- | []]. apply token_request_is_no_creation.
Qed.

(** C1, as the code has it. The body of every user-creation POST that
    [createUser] sends is the dump of the record's JSON value. When the
    record's password is not empty that value has a credentials member, an
    array of one element of type password, marked temporary, whose value is
    the literal logipad whatever the record's password is; when the password
    is empty the value has no credentials member at all. *)
Theorem C1_creation_body_carries_fixed_credential (c : KeycloakClient.t)
  (u : KeycloakClient.UserInfo) (realm : string) (w : World) (req : Request) :
  In req (issued w (snd (KeycloakClient.createUser c u realm w))) ->
  is_creation_request realm req ->
  KeycloakClient.toJson u = Ok (creation_value u)
  /\ (exists b, dump (creation_value u) = Ok b
                /\ content req = TextContent b "application/json")
  /\ field (creation_value u) "credentials"
     = if empty (KeycloakClient.password u) then None
       else Some (JArray [JObject [("temporary", JBool true);
                                   ("type", JString "password");
                                   ("value", JString "logipad")]]).
Proof.
  intros Hin Hreq.
  split; [apply toJson_value|]. split.
  - destruct (createUser_world c u realm w) as (N & l & S & L).
    rewrite (issued_app _ _ _ S) in Hin. apply in_app_or in Hin.
    destruct Hin as [Hin | Hin].
    + unfold lazy_authentication in Hin.
      destruct (empty (KeycloakClient.m_accessToken c) && has_credentials c);
        [|contradiction].
      destruct Hin as [<- | []].
      exfalso. exact (token_request_is_no_creation _ _ _ _ _ _ Hreq).
    + destruct L as [-> | (j & b & hs & Ej & Eb & _ & _ & ->)]; [contradiction|].
      destruct Hin as [<- | []]. exists b.
      rewrite toJson_value in Ej. injection Ej as <-.
      split; [exact Eb | reflexivity].
  - unfold creation_value. destruct (empty (KeycloakClient.password u)); reflexivity.
Qed.

End ProviderClaims.

(** C5 as stated fails: the client of the demonstration program, not yet
    authenticated, asked to create a record without a username, sends the
    token request, is given a token, and only then refuses the record. *)
Lemma C5_counterexample :
  empty (KeycloakClient.username
           {| KeycloakClient.username := ""; KeycloakClient.email := "testuser@test.com";
              KeycloakClient.firstName := "Test"; KeycloakClient.lastName := "User";
              KeycloakClient.password := "testpassword";
              KeycloakClient.enabled := true; KeycloakClient.emailVerified := true |})
  = true
  /\ fst (KeycloakClient.createUser (provider_client "")
       {| KeycloakClient.username := ""; KeycloakClient.email := "testuser@test.com";
          KeycloakClient.firstName := "Test"; KeycloakClient.lastName := "User";
          KeycloakClient.password := "testpassword";
          KeycloakClient.enabled := true; KeycloakClient.emailVerified := true |}
       "Logipad" (replying 200 (json_text "{'access_token':'abc'}")))
     = (Ok false,
        KeycloakClient.set_lastError (provider_client "abc") "Username is required")
  /\ sent (snd (KeycloakClient.createUser (provider_client "")
       {| KeycloakClient.username := ""; KeycloakClient.email := "testuser@test.com";
          KeycloakClient.firstName := "Test"; KeycloakClient.lastName := "User";
          KeycloakClient.password := "testpassword";
          KeycloakClient.enabled := true; KeycloakClient.emailVerified := true |}
       "Logipad" (replying 200 (json_text "{'access_token':'abc'}"))))
     = [token_request (KeycloakClient.m_client (provider_client ""))
          "master" "admin-cli" "dd-admin" "secret"].
Proof. repeat split. Qed.

(** C5 as amended, at the same call: false, one token request and nothing
    else, and no request at all to the user endpoint. *)
Lemma C5_witness :
  fst (fst (KeycloakClient.createUser (provider_client "")
       {| KeycloakClient.username := ""; KeycloakClient.email := "testuser@test.com";
          KeycloakClient.firstName := "Test"; KeycloakClient.lastName := "User";
          KeycloakClient.password := "testpassword";
          KeycloakClient.enabled := true; KeycloakClient.emailVerified := true |}
       "Logipad" (replying 200 (json_text "{'access_token':'abc'}")))) = Ok false
  /\ sent (snd (KeycloakClient.createUser (provider_client "")
       {| KeycloakClient.username := ""; KeycloakClient.email := "testuser@test.com";
          KeycloakClient.firstName := "Test"; KeycloakClient.lastName := "User";
          KeycloakClient.password := "testpassword";
          KeycloakClient.enabled := true; KeycloakClient.emailVerified := true |}
       "Logipad" (replying 200 (json_text "{'access_token':'abc'}"))))
     = [token_request_of (provider_client "")]
  /\ (forall req,
        In req (issued (replying 200 (json_text "{'access_token':'abc'}"))
                  (snd (KeycloakClient.createUser (provider_client "")
                     {| KeycloakClient.username := "";
                        KeycloakClient.email := "testuser@test.com";
                        KeycloakClient.firstName := "Test";
                        KeycloakClient.lastName := "User";
                        KeycloakClient.password := "testpassword";
                        KeycloakClient.enabled := true;
                        KeycloakClient.emailVerified := true |}
                     "Logipad" (replying 200 (json_text "{'access_token':'abc'}"))))) ->
        ~ is_creation_request "Logipad" req).
Proof.
  pose proof (C5_invalid_record_sends_no_creation_request (text := nlohmann)
                (provider_client "")
                {| KeycloakClient.username := "";
                   KeycloakClient.email := "testuser@test.com";
                   KeycloakClient.firstName := "Test"; KeycloakClient.lastName := "User";
                   KeycloakClient.password := "testpassword";
                   KeycloakClient.enabled := true; KeycloakClient.emailVerified := true |}
                "Logipad" (replying 200 (json_text "{'access_token':'abc'}")) eq_refl)
    as (R & _ & S & _ & N).
  split; [exact R | split; [exact S | exact N]].
Defined.

(** C1 as stated fails: a record with an empty password is a creation
    record, the client sends it, and the body has no credentials member. *)
Lemma C1_counterexample :
  issued (replying 201 "")
    (snd (KeycloakClient.createUser (provider_client "abc") (demo_user "")
            "Logipad" (replying 201 "")))
  = [demo_creation_request
       "{'email':'testuser@test.com','emailVerified':true,'enabled':true,'firstName':'Test','lastName':'User','username':'aaaaa'}"]
  /\ KeycloakClient.toJson (demo_user "")
     = Ok (JObject (profile_members (demo_user "")))
  /\ field (JObject (profile_members (demo_user ""))) "credentials" = None.
Proof. repeat split. Qed.

(** C1 as amended, at the call of the demonstration program: the password
    testpassword is not in the body, the literal logipad is. *)
Lemma C1_witness :
  issued (replying 201 "")
    (snd (KeycloakClient.createUser (provider_client "abc")
            (demo_user "testpassword") "Logipad" (replying 201 "")))
  = [demo_creation_request
       "{'credentials':[{'temporary':true,'type':'password','value':'logipad'}],'email':'testuser@test.com','emailVerified':true,'enabled':true,'firstName':'Test','lastName':'User','username':'aaaaa'}"]
  /\ field (creation_value (demo_user "testpassword")) "credentials"
     = Some (JArray [JObject [("temporary", JBool true);
                              ("type", JString "password");
                              ("value", JString "logipad")]]).
Proof.
  split; [reflexivity|].
  refine (proj2 (proj2
    (C1_creation_body_carries_fixed_credential (text := nlohmann)
       (provider_client "abc") (demo_user "testpassword") "Logipad"
       (replying 201 "")
       (demo_creation_request
          "{'credentials':[{'temporary':true,'type':'password','value':'logipad'}],'email':'testuser@test.com','emailVerified':true,'enabled':true,'firstName':'Test','lastName':'User','username':'aaaaa'}")
       _ _))).
  - left; reflexivity.
  - split; reflexivity.
Defined.

(** ** The directory client's own authentication *)

Section DirectoryAuthentication.
Context {text : JsonText}.

Lemma lc_authenticate_forgets_token (c : LogipadClient.t) (t : string) (w : World) :
  LogipadClient.authenticate (LogipadClient.set_accessToken c t) w
  = LogipadClient.authenticate c w.
Proof. reflexivity. Qed.

Lemma lc_authenticate_without_credentials (c : LogipadClient.t) (w : World) :
  empty (LogipadClient.m_username c) || empty (LogipadClient.m_password c) = true ->
  LogipadClient.authenticate c w = (Ok false, LogipadClient.set_accessToken c "", w).
Proof.
  intros E. unfold LogipadClient.authenticate.
  cbn [LogipadClient.m_username LogipadClient.m_password LogipadClient.set_accessToken].
  rewrite E. reflexivity.
Qed.

Lemma kc_authenticate_without_credentials (c : KeycloakClient.t) (w : World) :
  empty (KeycloakClient.m_username c) || empty (KeycloakClient.m_password c) = true ->
  KeycloakClient.authenticate c w
  = (Ok false,
     KeycloakClient.set_lastError
       (KeycloakClient.set_accessToken (KeycloakClient.set_lastError c "") "")
       "Username or password not set",
     w).
Proof.
  intros E. unfold KeycloakClient.authenticate.
  cbn [KeycloakClient.m_username KeycloakClient.m_password
       KeycloakClient.set_accessToken KeycloakClient.set_lastError].
  rewrite E. reflexivity.
Qed.

(** Unless [authenticate] returns true, the token it leaves is empty, also
    when it throws. *)
Lemma lc_authenticate_failed_token (c : LogipadClient.t) (w : World) :
  fst (fst (LogipadClient.authenticate c w)) <> Ok true ->
  LogipadClient.m_accessToken (snd (fst (LogipadClient.authenticate c w))) = "".
Proof.
  unfold LogipadClient.authenticate, Post_form, send.
  cbn [LogipadClient.m_username LogipadClient.m_password LogipadClient.set_accessToken].
  destruct (empty (LogipadClient.m_username c) || empty (LogipadClient.m_password c));
    [reflexivity|].
  on_answer r0;
    [|reflexivity].
  destruct (status r0 =? 200); [|reflexivity].
  match goal with |- context [match ?x with Ok _ => _ | _ => _ end] => destruct x end;
    try reflexivity.
  simpl. intros H. now elim H.
Qed.

(** No run of [authenticate] reads or writes the embedded pointer. *)
Lemma lc_authenticate_keeps_embedded (c : LogipadClient.t) (w : World) :
  LogipadClient.m_keycloakClient (snd (fst (LogipadClient.authenticate c w)))
  = LogipadClient.m_keycloakClient c.
Proof.
  unfold LogipadClient.authenticate, Post_form, send.
  cbn [LogipadClient.m_username LogipadClient.m_password LogipadClient.set_accessToken].
  destruct (empty (LogipadClient.m_username c) || empty (LogipadClient.m_password c));
    [reflexivity|].
  on_answer r0;
    [|reflexivity].
  destruct (status r0 =? 200); [|reflexivity].
  match goal with |- context [match ?x with Ok _ => _ | _ => _ end] => destruct x end;
    reflexivity.
Qed.

(** C2, as the code has it. [authenticate] on the directory client never
    touches the embedded client: it runs the password grant itself, over its
    own session. Whenever it returns (rather than throws), an
    identity-provider client set up alike would have returned the same
    value, left the same token and sent the same request. *)
Theorem C2_authenticate_agrees_when_it_returns (lc : LogipadClient.t)
  (kc : KeycloakClient.t) (w : World) (b : bool) :
  same_configuration lc kc ->
  fst (fst (LogipadClient.authenticate lc w)) = Ok b ->
  LogipadClient.m_keycloakClient (snd (fst (LogipadClient.authenticate lc w)))
  = LogipadClient.m_keycloakClient lc
  /\ fst (fst (KeycloakClient.authenticate kc w)) = Ok b
  /\ KeycloakClient.m_accessToken (snd (fst (KeycloakClient.authenticate kc w)))
     = LogipadClient.m_accessToken (snd (fst (LogipadClient.authenticate lc w)))
  /\ snd (KeycloakClient.authenticate kc w) = snd (LogipadClient.authenticate lc w).
Proof.
  intros (Hc & Hr & Hi & Hu & Hp) H.
  split; [apply lc_authenticate_keeps_embedded|].
  revert H.
  unfold LogipadClient.authenticate, KeycloakClient.authenticate, Post_form, send.
  cbn [LogipadClient.m_username LogipadClient.m_password LogipadClient.m_realm
       LogipadClient.m_clientId LogipadClient.m_httplibClient
       LogipadClient.set_accessToken
       KeycloakClient.m_username KeycloakClient.m_password KeycloakClient.m_realm
       KeycloakClient.m_clientId KeycloakClient.m_client
       KeycloakClient.set_accessToken KeycloakClient.set_lastError].
  rewrite Hc, Hr, Hi, Hu, Hp.
  destruct (empty (LogipadClient.m_username lc) || empty (LogipadClient.m_password lc));
    [intros H; injection H as <-; repeat split|].
  on_answer r0;
    [|intros H; injection H as <-; repeat split].
  destruct (status r0 =? 200);
    [|intros H; injection H as <-; destruct (negb (empty (body r0))); repeat split].
  destruct (parse (body r0)) as [j|e|]; [|discriminate|discriminate].
  cbn [bind].
  destruct j as [| | | | | |m]; try discriminate.
  cbn [Json.at_mut Json.contains bind].
  destruct (Json.find "access_token" m) as [v|]; [|discriminate].
  destruct v; try discriminate.
  cbn. intros H; injection H as <-; repeat split.
Qed.

(** C7. With an empty username or password, [authenticate] of either client
    returns false and leaves the world as it found it: no request is sent.
    And every attempt starts by clearing the stored token: running
    [authenticate] is running it on the state with the token already
    cleared, so nothing in the attempt ever sees the old token, and unless
    the attempt returns true the token it leaves is empty. *)
Theorem C7_authenticate_starts_from_a_cleared_token (kc : KeycloakClient.t)
  (lc : LogipadClient.t) (w : World) :
  (empty (KeycloakClient.m_username kc) || empty (KeycloakClient.m_password kc) = true ->
   fst (fst (KeycloakClient.authenticate kc w)) = Ok false
   /\ snd (KeycloakClient.authenticate kc w) = w)
  /\ (empty (LogipadClient.m_username lc) || empty (LogipadClient.m_password lc) = true ->
      fst (fst (LogipadClient.authenticate lc w)) = Ok false
      /\ snd (LogipadClient.authenticate lc w) = w)
  /\ KeycloakClient.authenticate kc w
     = KeycloakClient.authenticate (KeycloakClient.set_accessToken kc "") w
  /\ LogipadClient.authenticate lc w
     = LogipadClient.authenticate (LogipadClient.set_accessToken lc "") w
  /\ (fst (fst (KeycloakClient.authenticate kc w)) <> Ok true ->
      KeycloakClient.m_accessToken (snd (fst (KeycloakClient.authenticate kc w))) = "")
  /\ (fst (fst (LogipadClient.authenticate lc w)) <> Ok true ->
      LogipadClient.m_accessToken (snd (fst (LogipadClient.authenticate lc w))) = "").
Proof.
  repeat split.
  - rewrite kc_authenticate_without_credentials by assumption. reflexivity.
  - rewrite kc_authenticate_without_credentials by assumption. reflexivity.
  - rewrite lc_authenticate_without_credentials by assumption. reflexivity.
  - rewrite lc_authenticate_without_credentials by assumption. reflexivity.
  - apply kc_authenticate_failed_token.
  - apply lc_authenticate_failed_token.
Qed.

End DirectoryAuthentication.

(** ** Token state *)

Lemma provider_invariant_holds (c : KeycloakClient.t) : provider_invariant c.
Proof.
  unfold provider_invariant, KeycloakClient.isAuthenticated, KeycloakClient.getAccessToken.
  destruct (KeycloakClient.m_accessToken c); simpl; split; congruence.
Qed.

Lemma directory_invariant_holds (c : LogipadClient.t) : directory_invariant c.
Proof.
  unfold directory_invariant, LogipadClient.isAuthenticated, LogipadClient.getAccessToken.
  destruct (LogipadClient.m_accessToken c); simpl; split; congruence.
Qed.

Section TokenState.
Context {text : JsonText}.

(** C8. Both clients report authenticated exactly when their stored token is
    not empty, in the state every operation leaves: [authenticate],
    [createUser] and [setCredentials] of the identity-provider client,
    [authenticate] of the directory client ([getAllUsers] writes no member).
    After [setCredentials] the token is empty and the client reports
    unauthenticated; after an [authenticate] that failed (it returned false
    or, in the directory client, threw) the token is empty and the client
    reports unauthenticated. *)
Theorem C8_authenticated_iff_token_held (kc : KeycloakClient.t)
  (lc : LogipadClient.t) (username password : string)
  (u : KeycloakClient.UserInfo) (realm : string) (w : World) :
  provider_invariant (snd (fst (KeycloakClient.authenticate kc w)))
  /\ provider_invariant (snd (fst (KeycloakClient.createUser kc u realm w)))
  /\ provider_invariant (KeycloakClient.setCredentials kc username password)
  /\ directory_invariant (snd (fst (LogipadClient.authenticate lc w)))
  /\ (KeycloakClient.getAccessToken (KeycloakClient.setCredentials kc username password) = ""
      /\ KeycloakClient.isAuthenticated (KeycloakClient.setCredentials kc username password)
         = false)
  /\ (fst (fst (KeycloakClient.authenticate kc w)) <> Ok true ->
      KeycloakClient.getAccessToken (snd (fst (KeycloakClient.authenticate kc w))) = ""
      /\ KeycloakClient.isAuthenticated (snd (fst (KeycloakClient.authenticate kc w)))
         = false)
  /\ (fst (fst (LogipadClient.authenticate lc w)) <> Ok true ->
      LogipadClient.getAccessToken (snd (fst (LogipadClient.authenticate lc w))) = ""
      /\ LogipadClient.isAuthenticated (snd (fst (LogipadClient.authenticate lc w)))
         = false).
Proof.
  split; [apply provider_invariant_holds|].
  split; [apply provider_invariant_holds|].
  split; [apply provider_invariant_holds|].
  split; [apply directory_invariant_holds|].
  split; [split; reflexivity|].
  split.
  - intros F.
    assert (T : KeycloakClient.m_accessToken (snd (fst (KeycloakClient.authenticate kc w))) = "")
      by (apply kc_authenticate_failed_token; exact F).
    unfold KeycloakClient.getAccessToken, KeycloakClient.isAuthenticated.
    rewrite T. split; reflexivity.
  - intros F.
    assert (T : LogipadClient.m_accessToken (snd (fst (LogipadClient.authenticate lc w))) = "")
      by (apply lc_authenticate_failed_token; exact F).
    unfold LogipadClient.getAccessToken, LogipadClient.isAuthenticated.
    rewrite T. split; reflexivity.
Qed.

(** No json exception leaves [getAllUsers], and no assertion of the library
    fails in it: with any body at all it returns true or false. *)
Lemma getAllUsers_returns (c : LogipadClient.t) (us : LogipadClient.Users)
  (apiHost : string) (apiPort : Z) (w : World) :
  exists b, fst (fst (LogipadClient.getAllUsers c us apiHost apiPort w)) = Ok b.
Proof.
  assert (U : forall e, LogipadClient.read_user e <> Aborted).
  { intros e. unfold LogipadClient.read_user.
    assert (O : forall k, LogipadClient.optional_field e k <> Aborted).
    { intros k. unfold LogipadClient.optional_field, Json.contains, Json.at_const.
      destruct e as [| | | | | |m]; try discriminate.
      destruct (Json.find k m) as [v|]; [|discriminate].
      destruct v; discriminate. }
    assert (B : forall k d, LogipadClient.boolean_field e k d <> Aborted).
    { intros k d. unfold LogipadClient.boolean_field, Json.contains, Json.at_const.
      destruct e as [| | | | | |m]; try discriminate.
      destruct (Json.find k m) as [v|]; [|discriminate].
      destruct v; discriminate. }
    apply bind_not_abort.
    { unfold Json.contains, Json.at_const.
      destruct e as [| | | | | |m]; try discriminate.
      destruct (Json.find "guid" m) as [v|]; [|discriminate].
      destruct v; discriminate. }
    intros g.
    repeat (apply bind_not_abort; [first [apply O | apply B] | intros ?]).
    discriminate. }
  assert (L : forall es us0, fst (LogipadClient.read_users es us0) <> Aborted).
  { induction es as [|e es IH]; intros us0; simpl; [discriminate|].
    specialize (U e). destruct (LogipadClient.read_user e);
      [apply IH | discriminate | congruence]. }
  unfold LogipadClient.getAllUsers, Get, send.
  destruct (empty (LogipadClient.m_accessToken c)); [eexists; reflexivity|].
  on_answer r0;
    [|eexists; reflexivity].
  destruct (status r0 =? 200); [|eexists; reflexivity].
  destruct (parse (body r0)) as [j|e|] eqn:P;
    [| eexists; reflexivity | exfalso; exact (parse_returns_or_throws _ P)].
  destruct j as [| | | | | entries | m]; try (eexists; reflexivity).
  - cbn [Json.is_array Json.elements].
    specialize (L entries {| LogipadClient.users := [] |}).
    destruct (LogipadClient.read_users entries {| LogipadClient.users := [] |}) as [o us1].
    destruct o; [eexists; reflexivity | eexists; reflexivity | now elim L].
  - cbn [Json.is_array Json.is_object Json.contains Json.at_mut andb].
    destruct (Json.find "users" m) as [v|]; [|eexists; reflexivity].
    cbn [bind]. destruct v; try (eexists; reflexivity).
    cbn [Json.is_array Json.elements].
    specialize (L items {| LogipadClient.users := [] |}).
    destruct (LogipadClient.read_users items {| LogipadClient.users := [] |}) as [o us1].
    destruct o; [eexists; reflexivity | eexists; reflexivity | now elim L].
Qed.

(** The one exception that can leave [createUser] is the one [dump] throws
    on the record (text that is not UTF-8); nothing a response holds makes
    it throw. *)
Lemma createUser_throws_only_in_dump (c : KeycloakClient.t)
  (u : KeycloakClient.UserInfo) (realm : string) (w : World) :
  (exists b, fst (fst (KeycloakClient.createUser c u realm w)) = Ok b)
  \/ (exists e, dump (creation_value u) = Throw e
                /\ fst (fst (KeycloakClient.createUser c u realm w)) = Throw e).
Proof.
  unfold KeycloakClient.createUser.
  pose proof (ensureAuthenticated_returns (KeycloakClient.set_lastError c "") w) as [a Ha].
  destruct (KeycloakClient.ensureAuthenticated (KeycloakClient.set_lastError c "") w)
    as [[o c1] w1].
  simpl in Ha. subst o. destruct a; [|left; eexists; reflexivity].
  destruct (empty (KeycloakClient.username u)); [left; eexists; reflexivity|].
  destruct (empty (KeycloakClient.email u)); [left; eexists; reflexivity|].
  rewrite toJson_value. fold (creation_value u). cbn [bind].
  destruct (dump (creation_value u)) as [b|e|] eqn:D;
    [| right; exists e; split; reflexivity
     | exfalso; exact (dump_returns_or_throws _ D)].
  unfold Post, send.
  on_answer r0;
    [|left; eexists; reflexivity].
  destruct (status r0 =? 201); [left; eexists; reflexivity|].
  destruct (status r0 =? 409); [left; eexists; reflexivity|].
  destruct (negb (empty (body r0))); [|left; eexists; reflexivity].
  destruct (parse (body r0)) as [j|e|] eqn:P;
    [| left; eexists; reflexivity | exfalso; exact (parse_returns_or_throws _ P)].
  cbn [bind]. destruct j as [| | | | | |m]; try (left; eexists; reflexivity).
  cbn [Json.contains Json.at_mut].
  destruct (Json.find "errorMessage" m) as [v|]; [|left; eexists; reflexivity].
  cbn [bind]. destruct v; left; eexists; reflexivity.
Qed.

End TokenState.

(** ** The directory client's authentication, run *)

(** C3 fails on the code. The directory client of the demonstration program
    authenticates against a token endpoint that answers 200: with a body
    that is not JSON the parse error leaves [authenticate], and with the
    body of an empty object the type error of converting a null
    access_token to a string does; [authenticate] has no try block. The
    identity-provider client returns false on both. *)
Theorem C3_directory_authenticate_throws :
  fst (fst (LogipadClient.authenticate (directory_client "")
              (replying 200 "not json"))) = Throw (parse_error 101)
  /\ fst (fst (LogipadClient.authenticate (directory_client "")
                 (replying 200 "{}"))) = Throw (type_error 302)
  /\ fst (fst (LPLogipadClient.authenticate (directory_client "")
                 (replying 200 "not json"))) = Throw (parse_error 101)
  /\ fst (fst (KeycloakClient.authenticate (provider_client "")
                 (replying 200 "not json"))) = Ok false
  /\ fst (fst (KeycloakClient.authenticate (provider_client "")
                 (replying 200 "{}"))) = Ok false.
Proof. repeat split. Qed.

(** C2 as stated fails. The client the constructor builds embeds no
    identity-provider client at all, so there is nothing to delegate to or
    to mirror, even when its own authentication succeeds. And had it one,
    set up alike: on a 200 response with an empty object as body the
    embedded client would return false where the directory client throws;
    on a 200 response carrying a token the directory client stores the
    token and leaves the embedded client without one. *)
Lemma C2_counterexample :
  fst (fst (LogipadClient.authenticate (directory_client "")
              (replying 200 (json_text "{'access_token':'abc'}")))) = Ok true
  /\ ~ mirrors_embedded (directory_client "")
         (replying 200 (json_text "{'access_token':'abc'}"))
  /\ ~ mirrors_embedded (embedding (directory_client "")
                           (provider_like (directory_client "")))
         (replying 200 "{}")
  /\ ~ mirrors_embedded (embedding (directory_client "")
                           (provider_like (directory_client "")))
         (replying 200 (json_text "{'access_token':'abc'}")).
Proof.
  split; [reflexivity|]. split; [|split].
  - intros (kc & E & _). discriminate E.
  - intros (kc & E & R & _). injection E as <-. discriminate R.
  - intros (kc & E & _ & _ & K & _). injection E as <-.
    injection K as K. discriminate K.
Qed.

(** C2 as amended, at a token endpoint that answers with a token: the
    directory client returns true and holds abc, as an identity-provider
    client set up alike does, and its embedded pointer is still null. *)
Lemma C2_witness :
  LogipadClient.m_keycloakClient
    (snd (fst (LogipadClient.authenticate (directory_client "old")
                 (replying 200 (json_text "{'access_token':'abc'}"))))) = None
  /\ fst (fst (KeycloakClient.authenticate (provider_like (directory_client "old"))
                 (replying 200 (json_text "{'access_token':'abc'}")))) = Ok true
  /\ KeycloakClient.m_accessToken
       (snd (fst (KeycloakClient.authenticate (provider_like (directory_client "old"))
                    (replying 200 (json_text "{'access_token':'abc'}"))))) = "abc"
  /\ snd (KeycloakClient.authenticate (provider_like (directory_client "old"))
            (replying 200 (json_text "{'access_token':'abc'}")))
     = snd (LogipadClient.authenticate (directory_client "old")
              (replying 200 (json_text "{'access_token':'abc'}"))).
Proof.
  apply (C2_authenticate_agrees_when_it_returns (text := nlohmann)
           (directory_client "old") (provider_like (directory_client "old"))
           (replying 200 (json_text "{'access_token':'abc'}")) true).
  - repeat split.
  - reflexivity.
Defined.

(** C7 at two clients built without a password, holding a token from
    before, in a world that would have answered: false, nothing sent, the
    token gone. *)
Lemma C7_witness :
  (fst (fst (KeycloakClient.authenticate
               (KeycloakClient.set_accessToken
                  (KeycloakClient.make "keycloak-cloud.logipad.net" 443 "master"
                     "admin-cli" "dd-admin" "") "old")
               (replying 200 (json_text "{'access_token':'abc'}")))) = Ok false
   /\ snd (KeycloakClient.authenticate
             (KeycloakClient.set_accessToken
                (KeycloakClient.make "keycloak-cloud.logipad.net" 443 "master"
                   "admin-cli" "dd-admin" "") "old")
             (replying 200 (json_text "{'access_token':'abc'}")))
      = replying 200 (json_text "{'access_token':'abc'}"))
  /\ KeycloakClient.m_accessToken
       (snd (fst (KeycloakClient.authenticate
                    (KeycloakClient.set_accessToken
                       (KeycloakClient.make "keycloak-cloud.logipad.net" 443 "master"
                          "admin-cli" "dd-admin" "") "old")
                    (replying 200 (json_text "{'access_token':'abc'}"))))) = "".
Proof.
  pose proof (C7_authenticate_starts_from_a_cleared_token (text := nlohmann)
                (KeycloakClient.set_accessToken
                   (KeycloakClient.make "keycloak-cloud.logipad.net" 443 "master"
                      "admin-cli" "dd-admin" "") "old")
                (LogipadClient.set_accessToken
                   (LogipadClient.make "keycloak-cloud.logipad.net" 443 "Logipad"
                      "lpclient" "sysadm" "") "old")
                (replying 200 (json_text "{'access_token':'abc'}")))
    as (K & _ & _ & _ & T & _).
  split; [exact (K eq_refl)|].
  apply T. discriminate.
Defined.

(** C8 at the identity-provider client of the demonstration program, whose
    authentication is refused with status 401: false, no token, not
    authenticated. *)
Lemma C8_witness :
  KeycloakClient.getAccessToken
    (snd (fst (KeycloakClient.authenticate (provider_client "old")
                 (replying 401 "denied")))) = ""
  /\ KeycloakClient.isAuthenticated
       (snd (fst (KeycloakClient.authenticate (provider_client "old")
                    (replying 401 "denied")))) = false.
Proof.
  pose proof (C8_authenticated_iff_token_held (text := nlohmann)
                (provider_client "old") (directory_client "old")
                "dd-admin" "other" (demo_user "testpassword") "Logipad"
                (replying 401 "denied"))
    as (_ & _ & _ & _ & _ & F & _).
  apply F. discriminate.
Defined.

(** The sample run of the specification: a 200 response carrying the token
    abc makes [authenticate] return true and [getAccessToken] return abc,
    with the failure messages of the other paths beside it. *)
Example authenticate_stores_token :
  fst (KeycloakClient.authenticate (provider_client "")
         (replying 200 (json_text "{'access_token':'abc'}")))
  = (Ok true, provider_client "abc")
  /\ KeycloakClient.getLastError
       (snd (fst (KeycloakClient.authenticate (provider_client "")
                    (replying 401 "denied"))))
     = "Authentication failed with status: 401 - denied"
  /\ KeycloakClient.getLastError
       (snd (fst (KeycloakClient.authenticate (provider_client "")
                    (replying 200 "{}"))))
     = "Access token not found in response"
  /\ KeycloakClient.getLastError
       (snd (fst (KeycloakClient.authenticate (provider_client "") unreachable)))
     = "Authentication request failed".
Proof. repeat split. Qed.

(** [createUser] on the three kinds of status. *)
Example createUser_statuses :
  fst (fst (KeycloakClient.createUser (provider_client "abc")
              (demo_user "testpassword") "Logipad" (replying 201 ""))) = Ok true
  /\ KeycloakClient.getLastError
       (snd (fst (KeycloakClient.createUser (provider_client "abc")
                    (demo_user "testpassword") "Logipad" (replying 409 ""))))
     = "User with username 'aaaaa' already exists"
  /\ KeycloakClient.getLastError
       (snd (fst (KeycloakClient.createUser (provider_client "abc")
                    (demo_user "testpassword") "Logipad"
                    (replying 400 (json_text "{'errorMessage':'bad realm'}")))))
     = "Failed to create user. Status: 400 - bad realm"
  /\ KeycloakClient.getLastError
       (snd (fst (KeycloakClient.createUser (provider_client "abc")
                    (demo_user "testpassword") "Logipad" (replying 500 "oops"))))
     = "Failed to create user. Status: 500 - oops".
Proof. repeat split. Qed.

Section Returns.
Context {text : JsonText}.

(** X1. No exception leaves [authenticate] of the identity-provider client:
    for every state of the client and every answer of the network it
    returns true or false. *)
Theorem X1_provider_authenticate_returns (c : KeycloakClient.t) (w : World) :
  fst (fst (KeycloakClient.authenticate c w)) = Ok true
  \/ fst (fst (KeycloakClient.authenticate c w)) = Ok false.
Proof.
  destruct (kc_authenticate_returns c w) as [[|] H]; [left | right]; exact H.
Qed.

(** X2. No exception leaves [getAllUsers]: for every state of the client
    and every answer of the network, whatever the body, it returns true or
    false. *)
Theorem X2_getAllUsers_returns (c : LogipadClient.t) (us : LogipadClient.Users)
  (apiHost : string) (apiPort : Z) (w : World) :
  fst (fst (LogipadClient.getAllUsers c us apiHost apiPort w)) = Ok true
  \/ fst (fst (LogipadClient.getAllUsers c us apiHost apiPort w)) = Ok false.
Proof.
  destruct (getAllUsers_returns c us apiHost apiPort w) as [[|] H];
    [left | right]; exact H.
Qed.

End Returns.

(** A record whose username is the single byte FF, which is not UTF-8: the
    exception [dump] throws on it leaves [createUser]. *)
Example createUser_throws_on_ill_formed_text :
  fst (fst (KeycloakClient.createUser (provider_client "abc")
              {| KeycloakClient.username := String (char 255) EmptyString;
                 KeycloakClient.email := "testuser@test.com";
                 KeycloakClient.firstName := "Test"; KeycloakClient.lastName := "User";
                 KeycloakClient.password := "testpassword";
                 KeycloakClient.enabled := true; KeycloakClient.emailVerified := true |}
              "Logipad" (replying 201 ""))) = Throw (type_error 316).
Proof. reflexivity. Qed.

(** * More of what the clients do *)

(** ** Members of an object: lookup after assignment *)

Lemma find_assign (k k' : string) (v : json) (m : list (string * json)) :
  Json.find k (Json.assign k' v m)
  = or_else (if String.eqb k k' then Some v else None) (Json.find k m).
Proof.
  induction m as [|[k0 v0] m IH]; simpl.
  - destruct (String.eqb k k'); reflexivity.
  - destruct (String.compare k' k0) eqn:C; simpl.
    + apply String.compare_eq_iff in C. subst k0.
      destruct (String.eqb k k'); reflexivity.
    + destruct (String.eqb k k'); reflexivity.
    + rewrite IH. destruct (String.eqb_spec k k0) as [->|N].
      * destruct (String.eqb_spec k0 k') as [->|N']; [|reflexivity].
        pose proof (String.compare_antisym k' k') as A. rewrite C in A. discriminate A.
      * reflexivity.
Qed.

Lemma find_assign_if_has_value (k k' : string) (o : option string)
  (m : list (string * json)) :
  Json.find k (assign_if_has_value k' o m)
  = or_else (if String.eqb k k' then option_map JString o else None) (Json.find k m).
Proof.
  destruct o; simpl; [apply find_assign | destruct (String.eqb k k'); reflexivity].
Qed.

Lemma set_if_has_value_object (m : list (string * json)) (k : string)
  (o : option string) :
  User.set_if_has_value (JObject m) k o = Ok (JObject (assign_if_has_value k o m)).
Proof. destruct o; reflexivity. Qed.

(** ** Writing a user and reading it back *)

(** The value [User::toJson] builds is an object, and its members are those
    of [user_member]. *)
Lemma toJson_members (u : LogipadClient.User) :
  exists m, User.toJson u = Ok (JObject m) /\ forall k, Json.find k m = user_member u k.
Proof.
  unfold User.toJson. cbn [Json.set bind].
  repeat (rewrite set_if_has_value_object; cbn [bind]).
  cbn [Json.set bind].
  eexists. split; [reflexivity|].
  intros k. unfold user_member.
  rewrite !find_assign.
  repeat (rewrite find_assign_if_has_value).
  cbn [Json.find].
  repeat match goal with
         | |- context [String.eqb k ?l] =>
             destruct (String.eqb_spec k l) as [->|?];
             [ cbn;
               try match goal with
                   | |- context [option_map JString ?o] => destruct o
                   end;
               reflexivity
             | ]
         end.
  reflexivity.
Qed.

Lemma optional_field_found (m : list (string * json)) (k : string) (o : option string) :
  Json.find k m = option_map JString o ->
  LogipadClient.optional_field (JObject m) k = Ok o.
Proof.
  unfold LogipadClient.optional_field, Json.contains, Json.at_const.
  intros ->. destruct o; reflexivity.
Qed.

Lemma boolean_field_found (m : list (string * json)) (k : string) (dflt b : bool) :
  Json.find k m = Some (JBool b) ->
  LogipadClient.boolean_field (JObject m) k dflt = Ok b.
Proof.
  unfold LogipadClient.boolean_field, Json.contains, Json.at_const.
  intros ->. reflexivity.
Qed.

Lemma read_user_of_members (m : list (string * json)) (u : LogipadClient.User) :
  (forall k, Json.find k m = user_member u k) ->
  LogipadClient.read_user (JObject m) = Ok u.
Proof.
  intros H. unfold LogipadClient.read_user.
  unfold Json.contains at 1, Json.at_const at 1. rewrite (H "guid").
  cbn [user_member String.eqb Ascii.eqb Bool.eqb bind Json.get_string].
  repeat (erewrite optional_field_found by (rewrite H; reflexivity); cbn [bind]).
  repeat (erewrite boolean_field_found by (rewrite H; reflexivity); cbn [bind]).
  destruct u; reflexivity.
Qed.

Lemma read_user_toJson (u : LogipadClient.User) :
  exists j, User.toJson u = Ok j /\ LogipadClient.read_user j = Ok u.
Proof.
  destruct (toJson_members u) as (m & T & F).
  exists (JObject m). split; [exact T | apply read_user_of_members; exact F].
Qed.

(** The loop on entries that can all be read pushes their records, in
    order, behind what the collection held. *)
Lemma read_users_all (entries : list json) :
  forall (us : list LogipadClient.User) (us0 : LogipadClient.Users),
    Forall2 (fun u e => LogipadClient.read_user e = Ok u) us entries ->
    LogipadClient.read_users entries us0
    = (Ok tt, {| LogipadClient.users := LogipadClient.users us0 ++ us |}).
Proof.
  induction entries as [|e rest IH]; intros us us0 F; inversion F; subst; simpl.
  - rewrite app_nil_r. destruct us0; reflexivity.
  - match goal with H : LogipadClient.read_user e = Ok _ |- _ => rewrite H end.
    erewrite IH by eassumption. simpl. rewrite <- app_assoc. reflexivity.
Qed.

(** The loop that stops on an exception stops at the first entry that
    throws, with the records of the entries before it pushed. *)
Lemma read_users_stops (entries : list json) :
  forall (us0 us' : LogipadClient.Users) (err : json_exception),
    LogipadClient.read_users entries us0 = (Throw err, us') ->
    exists new e,
      LogipadClient.users us' = (LogipadClient.users us0 ++ new)%list
      /\ Forall2 (fun e u => LogipadClient.read_user e = Ok u)
           (firstn (List.length new) entries) new
      /\ nth_error entries (List.length new) = Some e
      /\ LogipadClient.read_user e = Throw err.
Proof.
  induction entries as [|e rest IH]; intros us0 us' err H; simpl in H; [discriminate|].
  destruct (LogipadClient.read_user e) as [u|x|] eqn:R.
  - apply IH in H. destruct H as (new & e' & U & F & N & T).
    exists (u :: new), e'. simpl in U. rewrite <- app_assoc in U.
    repeat split; [exact U | simpl; constructor; assumption | exact N | exact T].
  - injection H as <- <-. exists [], e. rewrite app_nil_r.
    repeat split; [constructor | exact R].
  - discriminate.
Qed.

Lemma read_user_of_non_object (e : json) :
  Json.is_object e = false -> LogipadClient.read_user e = Ok blank_user.
Proof. destruct e; try reflexivity. discriminate. Qed.

Section DirectoryMore.
Context {text : JsonText}.

(** X3. The JSON value [User::toJson] builds for a user is an object whose
    members are exactly: the guid; each of the sixteen optional attributes
    that is set, as a string, and no member for one that is not; the two
    flags; and nothing under any other key. It never throws. *)
Theorem X3_user_toJson_members (u : LogipadClient.User) :
  exists j,
    User.toJson u = Ok j
    /\ Json.is_object j = true
    /\ forall k, field j k = user_member u k.
Proof.
  destruct (toJson_members u) as (m & T & F).
  exists (JObject m). repeat split; [exact T | exact F].
Qed.

(** X4. Reading back what [User::toJson] wrote gives the user again: the
    loop body of [getAllUsers] applied to the value [toJson] builds returns
    the very record, for every record. *)
Theorem X4_read_user_inverts_toJson (u : LogipadClient.User) :
  exists j, User.toJson u = Ok j /\ LogipadClient.read_user j = Ok u.
Proof. exact (read_user_toJson u). Qed.

(** X5. A directory that answers 200 with the users' own JSON values, in
    either envelope, makes [getAllUsers] return true and hand back exactly
    those users, in order, whatever the collection held before. *)
Theorem X5_getAllUsers_returns_what_was_written (c : LogipadClient.t)
  (us0 : LogipadClient.Users) (apiHost : string) (apiPort : Z) (w : World)
  (resp : Response) (j : json) (entries : list json)
  (us : list LogipadClient.User) :
  empty (LogipadClient.m_accessToken c) = false ->
  network w (sent w) (users_request (LogipadClient.m_accessToken c) apiHost apiPort)
  = Some resp ->
  status resp = 200 ->
  parse (body resp) = Ok j ->
  envelope j = Some entries ->
  Forall2 (fun u e => User.toJson u = Ok e) us entries ->
  fst (LogipadClient.getAllUsers c us0 apiHost apiPort w)
  = (Ok true, {| LogipadClient.users := us |}).
Proof.
  intros T N S P E F.
  rewrite (getAllUsers_parsed c us0 apiHost apiPort w resp j T N S P), E.
  erewrite read_users_all; [reflexivity|].
  clear - F. induction F as [|u e us entries H F IH]; constructor; [|exact IH].
  destruct (read_user_toJson u) as (j' & T' & R). rewrite T' in H.
  injection H as <-. exact R.
Qed.

(** X6. When [getAllUsers] returns false on a 200 response whose body is an
    envelope, the collection it hands back is not cleared again: it holds
    the records of the entries before the first one that could not be read
    (a guid or attribute that is not a string, a flag that is not a
    boolean), and that entry is the one the exception came from. *)
Theorem X6_getAllUsers_false_keeps_the_records_read (c : LogipadClient.t)
  (us0 : LogipadClient.Users) (apiHost : string) (apiPort : Z) (w : World)
  (resp : Response) (j : json) (entries : list json)
  (us' : LogipadClient.Users) (w' : World) :
  empty (LogipadClient.m_accessToken c) = false ->
  network w (sent w) (users_request (LogipadClient.m_accessToken c) apiHost apiPort)
  = Some resp ->
  status resp = 200 ->
  parse (body resp) = Ok j ->
  envelope j = Some entries ->
  LogipadClient.getAllUsers c us0 apiHost apiPort w = (Ok false, us', w') ->
  exists e err,
    Forall2 (fun e u => LogipadClient.read_user e = Ok u)
      (firstn (List.length (LogipadClient.users us')) entries)
      (LogipadClient.users us')
    /\ nth_error entries (List.length (LogipadClient.users us')) = Some e
    /\ LogipadClient.read_user e = Throw err.
Proof.
  intros T N S P E H.
  rewrite (getAllUsers_parsed c us0 apiHost apiPort w resp j T N S P), E in H.
  destruct (LogipadClient.read_users entries {| LogipadClient.users := [] |})
    as [o us1] eqn:R.
  destruct o as [[]|err|]; try discriminate. injection H as <- <-.
  apply read_users_stops in R. destruct R as (new & e & U & F & Nth & Th).
  simpl in U. rewrite U. exists e, err. repeat split; assumption.
Qed.

(** The one request of [getAllUsers], and its result when the answer is not
    a 200 response. *)
Lemma getAllUsers_one_request (c : LogipadClient.t)
  (us0 : LogipadClient.Users) (apiHost : string) (apiPort : Z) (w : World) :
  empty (LogipadClient.m_accessToken c) = false ->
  snd (LogipadClient.getAllUsers c us0 apiHost apiPort w)
  = {| network := network w;
       sent := sent w
               ++ [users_request (LogipadClient.m_accessToken c) apiHost apiPort] |}
  /\ (match network w (sent w)
              (users_request (LogipadClient.m_accessToken c) apiHost apiPort) with
      | Some resp => status resp <> 200
      | None => True
      end ->
      fst (LogipadClient.getAllUsers c us0 apiHost apiPort w)
      = (Ok false, {| LogipadClient.users := [] |})).
Proof.
  intros T. unfold LogipadClient.getAllUsers, Get, send, users_request.
  rewrite T, make_headers_bearer.
  on_answer r0; [|split; reflexivity].
  destruct (status r0 =? 200) eqn:S.
  - split; [|intros N; apply Z.eqb_eq in S; contradiction].
    destruct (parse (body r0)) as [j| |]; try reflexivity.
    destruct j as [| | | | | entries | m]; try reflexivity.
    + cbn [Json.is_array Json.elements].
      destruct (LogipadClient.read_users entries {| LogipadClient.users := [] |})
        as [[| |] us1]; reflexivity.
    + cbn [Json.is_array Json.is_object Json.contains Json.at_mut andb].
      destruct (Json.find "users" m) as [v|]; [|reflexivity].
      cbn [bind]. destruct v; try reflexivity.
      cbn [Json.is_array Json.elements].
      destruct (LogipadClient.read_users items {| LogipadClient.users := [] |})
        as [[| |] us1]; reflexivity.
  - split; reflexivity.
Qed.

(** X7. With a token held, [getAllUsers] sends exactly one request whatever
    the answer: the GET of /users to the host and port it was given, with
    the bearer header. And unless that request is answered with status 200
    the call returns false with an empty collection. *)
Theorem X7_getAllUsers_sends_one_request (c : LogipadClient.t)
  (us0 : LogipadClient.Users) (apiHost : string) (apiPort : Z) (w : World) :
  empty (LogipadClient.m_accessToken c) = false ->
  snd (LogipadClient.getAllUsers c us0 apiHost apiPort w)
  = {| network := network w;
       sent := sent w
               ++ [users_request (LogipadClient.m_accessToken c) apiHost apiPort] |}
  /\ (match network w (sent w)
              (users_request (LogipadClient.m_accessToken c) apiHost apiPort) with
      | Some resp => status resp <> 200
      | None => True
      end ->
      fst (LogipadClient.getAllUsers c us0 apiHost apiPort w)
      = (Ok false, {| LogipadClient.users := [] |})).
Proof. exact (getAllUsers_one_request c us0 apiHost apiPort w). Qed.

(** X8. An entry of the envelope that is not an object (a number, a string,
    null, an array) is not an error: it is read as the blank record, with an
    empty guid, no attribute set, is_active true and is_reportable false. An
    envelope of such entries makes [getAllUsers] return true with one blank
    record per entry. *)
Theorem X8_non_object_entries_read_as_blank (c : LogipadClient.t)
  (us0 : LogipadClient.Users) (apiHost : string) (apiPort : Z) (w : World)
  (resp : Response) (j : json) (entries : list json) :
  empty (LogipadClient.m_accessToken c) = false ->
  network w (sent w) (users_request (LogipadClient.m_accessToken c) apiHost apiPort)
  = Some resp ->
  status resp = 200 ->
  parse (body resp) = Ok j ->
  envelope j = Some entries ->
  Forall (fun e => Json.is_object e = false) entries ->
  fst (LogipadClient.getAllUsers c us0 apiHost apiPort w)
  = (Ok true, {| LogipadClient.users := map (fun _ => blank_user) entries |}).
Proof.
  intros T N S P E F.
  rewrite (getAllUsers_parsed c us0 apiHost apiPort w resp j T N S P), E.
  erewrite read_users_all; [reflexivity|].
  clear - F. induction F as [|e entries H F IH]; simpl; constructor; [|exact IH].
  apply read_user_of_non_object. exact H.
Qed.

End DirectoryMore.

(** ** Authentication against the token endpoint *)

Ltac kc_authenticate_unfold :=
  unfold KeycloakClient.authenticate, has_credentials, token_request_of,
    token_request, Post_form, send in *;
  cbn [KeycloakClient.m_username KeycloakClient.m_password KeycloakClient.m_realm
       KeycloakClient.m_clientId KeycloakClient.m_client
       KeycloakClient.set_accessToken KeycloakClient.set_lastError app negb] in *;
  rewrite ?token_params in *.

Ltac lc_authenticate_unfold :=
  unfold LogipadClient.authenticate, directory_token_request,
    token_request, Post_form, send in *;
  cbn [LogipadClient.m_username LogipadClient.m_password LogipadClient.m_realm
       LogipadClient.m_clientId LogipadClient.m_httplibClient
       LogipadClient.set_accessToken app negb] in *;
  rewrite ?token_params in *.

Section Authentication.
Context {text : JsonText}.

(** The state [authenticate] works on: message and token cleared. *)
Definition cleared (c : KeycloakClient.t) : KeycloakClient.t :=
  KeycloakClient.set_accessToken (KeycloakClient.set_lastError c "") "".

(** [authenticate] of the identity-provider client on a 200 response whose
    body parses. *)
Lemma kc_authenticate_parsed (c : KeycloakClient.t) (w : World)
  (resp : Response) (j : json) :
  has_credentials c = true ->
  network w (sent w) (token_request_of c) = Some resp ->
  status resp = 200 ->
  parse (body resp) = Ok j ->
  fst (KeycloakClient.authenticate c w)
  = match field j "access_token" with
    | Some (JString s) => (Ok true, KeycloakClient.set_accessToken (cleared c) s)
    | Some _ =>
        (Ok false,
         KeycloakClient.set_lastError (cleared c)
           ("Failed to parse JSON response: " ++ what (type_error 302)))
    | None =>
        (Ok false,
         KeycloakClient.set_lastError (cleared c) "Access token not found in response")
    end.
Proof.
  intros C N S P. kc_authenticate_unfold.
  destruct (empty (KeycloakClient.m_username c) || empty (KeycloakClient.m_password c));
    [discriminate C|].
  rewrite N. cbv beta iota. rewrite S. change (200 =? 200) with true. cbv beta iota.
  rewrite P. cbn [bind].
  destruct j as [| | | | | |m]; try reflexivity.
  cbn [Json.contains Json.at_mut field].
  destruct (Json.find "access_token" m) as [v|]; [|reflexivity].
  cbn [bind]. destruct v; reflexivity.
Qed.

(** [authenticate] of the identity-provider client anywhere else: it
    returns false, the token empty and a message set. *)
Lemma kc_authenticate_refused (c : KeycloakClient.t) (w : World) :
  has_credentials c = false
  \/ network w (sent w) (token_request_of c) = None
  \/ (exists resp, network w (sent w) (token_request_of c) = Some resp
                   /\ (status resp <> 200
                       \/ exists e, parse (body resp) = Throw e)) ->
  fst (fst (KeycloakClient.authenticate c w)) = Ok false
  /\ KeycloakClient.m_accessToken (snd (fst (KeycloakClient.authenticate c w))) = ""
  /\ KeycloakClient.m_lastError (snd (fst (KeycloakClient.authenticate c w))) <> "".
Proof.
  intros H. kc_authenticate_unfold.
  destruct (empty (KeycloakClient.m_username c) || empty (KeycloakClient.m_password c));
    [repeat split; discriminate|].
  destruct H as [H | [H | (resp & H & R)]]; [discriminate H | |]; rewrite H.
  - repeat split; discriminate.
  - cbv beta iota. destruct (status resp =? 200) eqn:S.
    + destruct R as [R | (e & R)]; [apply Z.eqb_eq in S; contradiction|].
      rewrite R. repeat split; discriminate.
    + destruct (negb (empty (body resp))); repeat split; discriminate.
Qed.

(** X9. [authenticate] of the identity-provider client returns true exactly
    when the client has both credentials and the token endpoint answers 200
    with a JSON object whose access_token is a string; it then stores that
    string as its token (even when it is empty) and holds no error
    message. *)
Theorem X9_provider_authenticate_true_iff_granted (c : KeycloakClient.t) (w : World) :
  (fst (fst (KeycloakClient.authenticate c w)) = Ok true
   <-> has_credentials c = true /\ exists s, grants w (token_request_of c) s)
  /\ (forall s,
        has_credentials c = true ->
        grants w (token_request_of c) s ->
        fst (fst (KeycloakClient.authenticate c w)) = Ok true
        /\ KeycloakClient.getAccessToken (snd (fst (KeycloakClient.authenticate c w))) = s
        /\ KeycloakClient.getLastError (snd (fst (KeycloakClient.authenticate c w))) = "").
Proof.
  assert (G : forall s, has_credentials c = true -> grants w (token_request_of c) s ->
              fst (KeycloakClient.authenticate c w)
              = (Ok true, KeycloakClient.set_accessToken (cleared c) s)).
  { intros s C (resp & j & N & S & P & F).
    rewrite (kc_authenticate_parsed c w resp j C N S P), F. reflexivity. }
  split; [split|].
  - intros T. destruct (has_credentials c) eqn:C.
    + split; [reflexivity|].
      destruct (network w (sent w) (token_request_of c)) as [resp|] eqn:N.
      * destruct (Z.eq_dec (status resp) 200) as [S|S].
        -- destruct (parse (body resp)) as [j|e|] eqn:P.
           ++ pose proof (kc_authenticate_parsed c w resp j C N S P) as E.
              destruct (field j "access_token") as [[| | | |s| |]|] eqn:F;
                try (rewrite E in T; discriminate T).
              exists s, resp, j. repeat split; assumption.
           ++ destruct (kc_authenticate_refused c w) as (R & _);
                [right; right; exists resp; split; [exact N | right; eauto]|].
              rewrite R in T. discriminate T.
           ++ exfalso. exact (parse_returns_or_throws _ P).
        -- destruct (kc_authenticate_refused c w) as (R & _);
             [right; right; exists resp; split; [exact N | left; exact S]|].
           rewrite R in T. discriminate T.
      * destruct (kc_authenticate_refused c w) as (R & _); [right; left; exact N|].
        rewrite R in T. discriminate T.
    + destruct (kc_authenticate_refused c w) as (R & _); [left; exact C|].
      rewrite R in T. discriminate T.
  - intros (C & s & Gr). rewrite (G s C Gr). reflexivity.
  - intros s C Gr. rewrite (G s C Gr). repeat split.
Qed.

(** The token request is what [authenticate] sends, when it sends. *)
Lemma lc_authenticate_world (c : LogipadClient.t) (w : World) :
  snd (LogipadClient.authenticate c w)
  = if negb (empty (LogipadClient.m_username c) || empty (LogipadClient.m_password c))
    then snd (send (directory_token_request c) w) else w.
Proof.
  lc_authenticate_unfold.
  destruct (empty (LogipadClient.m_username c) || empty (LogipadClient.m_password c));
    [reflexivity|].
  cbn [negb]. on_answer r0; [|reflexivity].
  destruct (status r0 =? 200); [|reflexivity].
  match goal with |- context [match ?x with Ok _ => _ | _ => _ end] => destruct x end;
    reflexivity.
Qed.

(** [authenticate] of the directory client when a credential is missing,
    no response came or the status is not 200. *)
Lemma lc_authenticate_refused (c : LogipadClient.t) (w : World) :
  empty (LogipadClient.m_username c) || empty (LogipadClient.m_password c) = true
  \/ match network w (sent w) (directory_token_request c) with
     | Some resp => status resp <> 200
     | None => True
     end ->
  fst (LogipadClient.authenticate c w) = (Ok false, LogipadClient.set_accessToken c "").
Proof.
  intros H. lc_authenticate_unfold.
  destruct (empty (LogipadClient.m_username c) || empty (LogipadClient.m_password c));
    [reflexivity|].
  destruct H as [H | H]; [discriminate H|].
  on_answer resp; [|reflexivity].
  destruct (status resp =? 200) eqn:S; [|reflexivity].
  apply Z.eqb_eq in S. contradiction.
Qed.

(** [authenticate] of the directory client on a 200 response: the token is
    stored when the body grants one, and an exception leaves the call when
    it does not. *)
Lemma lc_authenticate_answered (c : LogipadClient.t) (w : World) (resp : Response) :
  empty (LogipadClient.m_username c) || empty (LogipadClient.m_password c) = false ->
  network w (sent w) (directory_token_request c) = Some resp ->
  status resp = 200 ->
  (exists s, grants w (directory_token_request c) s
             /\ fst (LogipadClient.authenticate c w)
                = (Ok true, LogipadClient.set_accessToken c s))
  \/ ((forall s, ~ grants w (directory_token_request c) s)
      /\ exists e, fst (fst (LogipadClient.authenticate c w)) = Throw e).
Proof.
  intros C N S.
  assert (No : forall j, parse (body resp) = Ok j ->
                 (forall s, field j "access_token" <> Some (JString s)) ->
                 forall s, ~ grants w (directory_token_request c) s).
  { intros j P F s (r & j' & N' & _ & P' & F'). rewrite N in N'. injection N' as <-.
    rewrite P in P'. injection P' as <-. exact (F s F'). }
  assert (No' : forall e, parse (body resp) = Throw e ->
                  forall s, ~ grants w (directory_token_request c) s).
  { intros e P s (r & j' & N' & _ & P' & _). rewrite N in N'. injection N' as <-.
    rewrite P in P'. discriminate P'. }
  unfold grants in *. lc_authenticate_unfold. rewrite C in *.
  rewrite N in *. cbv beta iota. rewrite S. change (200 =? 200) with true.
  cbv beta iota.
  destruct (parse (body resp)) as [j|e|] eqn:P; cbn [bind].
  - specialize (No j eq_refl).
    destruct j as [| | | | | |m];
      try (right; split; [apply No; intros ? ?; discriminate | eexists; reflexivity]).
    cbn [Json.at_mut bind field] in *.
    destruct (Json.find "access_token" m) as [v|] eqn:F;
      [|right; split; [apply No; intros ? ?; discriminate | eexists; reflexivity]].
    destruct v;
      try (right; split; [apply No; intros ? ?; discriminate | eexists; reflexivity]).
    left. exists s. split; [|reflexivity].
    exists resp, (JObject m). repeat split; assumption.
  - right. split; [exact (No' e eq_refl) | eexists; reflexivity].
  - exfalso. exact (parse_returns_or_throws _ P).
Qed.

(** X10. [authenticate] of the directory client returns true exactly when
    it has both credentials and the token endpoint answers 200 with a JSON
    object whose access_token is a string, which it then stores; it returns
    false exactly when a credential is missing, no response came, or the
    status is not 200. A 200 response of any other content makes it do
    neither. *)
Theorem X10_directory_authenticate_outcomes (c : LogipadClient.t) (w : World) :
  (fst (fst (LogipadClient.authenticate c w)) = Ok true
   <-> empty (LogipadClient.m_username c) || empty (LogipadClient.m_password c) = false
       /\ exists s, grants w (directory_token_request c) s)
  /\ (forall s,
        empty (LogipadClient.m_username c) || empty (LogipadClient.m_password c) = false ->
        grants w (directory_token_request c) s ->
        LogipadClient.getAccessToken (snd (fst (LogipadClient.authenticate c w))) = s)
  /\ (fst (fst (LogipadClient.authenticate c w)) = Ok false
      <-> empty (LogipadClient.m_username c) || empty (LogipadClient.m_password c) = true
          \/ match network w (sent w) (directory_token_request c) with
             | Some resp => status resp <> 200
             | None => True
             end).
Proof.
  destruct (empty (LogipadClient.m_username c) || empty (LogipadClient.m_password c))
    eqn:C.
  { pose proof (lc_authenticate_refused c w) as R. rewrite C in R.
    specialize (R (or_introl eq_refl)). rewrite R.
    split; [split; [discriminate | intros [? _]; discriminate]|].
    split; [discriminate | split; [left; reflexivity | reflexivity]]. }
  destruct (network w (sent w) (directory_token_request c)) as [resp|] eqn:N.
  2:{ pose proof (lc_authenticate_refused c w) as R. rewrite C, N in R.
      specialize (R (or_intror I)). rewrite R.
      split; [split; [discriminate | intros (_ & s & r & j & N' & _)]|].
      - rewrite N in N'. discriminate N'.
      - split; [intros s _ (r & j & N' & _); rewrite N in N'; discriminate N'|].
        split; [right; exact I | reflexivity]. }
  destruct (Z.eq_dec (status resp) 200) as [S|S].
  2:{ pose proof (lc_authenticate_refused c w) as R. rewrite C, N in R.
      specialize (R (or_intror S)). rewrite R.
      split; [split; [discriminate | intros (_ & s & r & j & N' & S' & _)]|].
      - rewrite N in N'. injection N' as <-. contradiction.
      - split; [intros s _ (r & j & N' & S' & _); rewrite N in N';
                injection N' as <-; contradiction|].
        split; [right; exact S | reflexivity]. }
  assert (Unique : forall s s', grants w (directory_token_request c) s ->
                     grants w (directory_token_request c) s' -> s = s').
  { intros s s' (r & j & N1 & _ & P1 & F1) (r' & j' & N2 & _ & P2 & F2).
    rewrite N1 in N2. injection N2 as <-. rewrite P1 in P2. injection P2 as <-.
    rewrite F1 in F2. injection F2 as <-. reflexivity. }
  pose proof (lc_authenticate_refused c w) as R. rewrite C, N in R. clear R.
  destruct (lc_authenticate_answered c w resp C N S) as [(s & G & E) | (NG & e & E)].
  - rewrite E. cbn [fst snd]. split; [split; [intros _; split; [reflexivity | eauto]
                                              | reflexivity]|].
    split; [intros s' _ G'; apply (Unique s s' G G')|].
    split; [discriminate | intros [D | D]; [discriminate | contradiction]].
  - rewrite E. split; [split; [discriminate | intros (_ & s & G); elim (NG s G)]|].
    split; [intros s _ G; elim (NG s G)|].
    split; [discriminate | intros [D | D]; [discriminate | contradiction]].
Qed.

(** X15. When it has both credentials, [authenticate] of either client
    sends exactly one request, the form-encoded POST to the token endpoint
    of the client's own realm with the fields client_id, grant_type =
    password, username and password, over the client's own session; without
    both credentials it sends nothing. The network itself is left as it
    was. *)
Theorem X15_authenticate_sends_the_token_request (kc : KeycloakClient.t)
  (lc : LogipadClient.t) (w : World) :
  snd (KeycloakClient.authenticate kc w)
  = {| network := network w;
       sent := sent w ++ (if has_credentials kc then [token_request_of kc] else []) |}
  /\ snd (LogipadClient.authenticate lc w)
     = {| network := network w;
          sent := sent w
                  ++ (if negb (empty (LogipadClient.m_username lc)
                               || empty (LogipadClient.m_password lc))
                      then [directory_token_request lc] else []) |}.
Proof.
  rewrite kc_authenticate_world, lc_authenticate_world. split.
  - destruct (has_credentials kc); [reflexivity|].
    rewrite app_nil_r. destruct w; reflexivity.
  - destruct (negb (empty (LogipadClient.m_username lc)
                    || empty (LogipadClient.m_password lc))); [reflexivity|].
    rewrite app_nil_r. destruct w; reflexivity.
Qed.

End Authentication.

(** ** Creating a user *)

Lemma append_empty (s : string) : s ++ "" = s.
Proof. induction s as [|a s IH]; simpl; [reflexivity | rewrite IH; reflexivity]. Qed.

Lemma append_assoc_literal (a b c : string) : (a ++ b) ++ c = a ++ b ++ c.
Proof. induction a as [|x a IH]; simpl; [reflexivity | rewrite IH; reflexivity]. Qed.

Lemma creation_request_set_lastError (c : KeycloakClient.t) (msg realm b : string) :
  creation_request (KeycloakClient.set_lastError c msg) realm b
  = creation_request c realm b.
Proof. reflexivity. Qed.

(** The branch of [createUser_run] in which the creation request went out. *)
Ltac sent_branch Hs N :=
  cbn [fst snd network sent]; split; [reflexivity|]; right; right;
  eexists; split; [reflexivity|]; split; [reflexivity|]; split; [reflexivity|];
  split; [rewrite <- app_assoc; reflexivity|];
  split; [exact Hs|];
  rewrite ?creation_request_set_lastError; rewrite N; cbn [creation_answer].

Section Creation.
Context {text : JsonText}.

(** After an [authenticate] that returned true there is no message; after
    one that returned false there is one. *)
Lemma kc_authenticate_message (c : KeycloakClient.t) (w : World) :
  (fst (fst (KeycloakClient.authenticate c w)) = Ok true ->
   KeycloakClient.m_lastError (snd (fst (KeycloakClient.authenticate c w))) = "")
  /\ (fst (fst (KeycloakClient.authenticate c w)) = Ok false ->
      KeycloakClient.m_lastError (snd (fst (KeycloakClient.authenticate c w))) <> "").
Proof.
  kc_authenticate_unfold.
  destruct (empty (KeycloakClient.m_username c) || empty (KeycloakClient.m_password c));
    [split; discriminate|].
  on_answer r0; [|split; discriminate].
  destruct (status r0 =? 200).
  - destruct (parse (body r0)) as [j|e|]; [| split; discriminate | split; discriminate].
    cbn [bind]. destruct j as [| | | | | |m]; try (split; discriminate).
    cbn [Json.contains Json.at_mut].
    destruct (Json.find "access_token" m) as [v|]; [|split; discriminate].
    cbn [bind]. destruct v; try (split; discriminate).
    split; [reflexivity | discriminate].
  - destruct (negb (empty (body r0))); split; discriminate.
Qed.

Lemma ensureAuthenticated_true_message (c : KeycloakClient.t) (w : World) :
  KeycloakClient.m_lastError c = "" ->
  fst (fst (KeycloakClient.ensureAuthenticated c w)) = Ok true ->
  KeycloakClient.m_lastError (snd (fst (KeycloakClient.ensureAuthenticated c w))) = "".
Proof.
  unfold KeycloakClient.ensureAuthenticated.
  destruct (empty (KeycloakClient.m_accessToken c)); [|intros E _; exact E].
  intros _. apply (proj1 (kc_authenticate_message c w)).
Qed.

(** The message [createUser] builds from an error body is the one of
    [error_detail]. *)
Lemma error_detail_of_body (msg body : string) :
  empty body = false ->
  match
    errorJson <- parse body ;;
    if Json.contains errorJson "errorMessage" then
      v <- Json.at_mut errorJson "errorMessage" ;;
      s <- Json.get_string v ;;
      Ok (" - " ++ s)
    else Ok (" - " ++ body)
  with
  | Ok suffix => Some (msg ++ suffix)
  | Throw _ => Some (msg ++ " - " ++ body)
  | Aborted => None
  end = Some (msg ++ error_detail body).
Proof.
  intros E. unfold error_detail. rewrite E.
  destruct (parse body) as [j|e|] eqn:P; cbn [bind];
    [| reflexivity | exfalso; exact (parse_returns_or_throws _ P)].
  destruct j as [| | | | | |m]; try reflexivity.
  cbn [Json.contains Json.at_mut field].
  destruct (Json.find "errorMessage" m) as [v|]; [|reflexivity].
  cbn [bind]. destruct v; reflexivity.
Qed.

(** Every call of [createUser] goes one of the three ways of
    [creation_run]. *)
Lemma createUser_run (c : KeycloakClient.t) (u : KeycloakClient.UserInfo)
  (realm : string) (w : World) :
  creation_run c u realm w
    (fst (fst (KeycloakClient.createUser c u realm w)))
    (snd (fst (KeycloakClient.createUser c u realm w)))
    (snd (KeycloakClient.createUser c u realm w)).
Proof.
  unfold creation_run, KeycloakClient.createUser.
  pose proof (ensureAuthenticated_returns (KeycloakClient.set_lastError c "") w) as [a Ha].
  pose proof (ensureAuthenticated_world (KeycloakClient.set_lastError c "") w) as Hw.
  pose proof (ensureAuthenticated_session (KeycloakClient.set_lastError c "") w) as Hs.
  pose proof (ensureAuthenticated_true_message (KeycloakClient.set_lastError c "") w
                eq_refl) as Hm.
  change (lazy_authentication (KeycloakClient.set_lastError c ""))
    with (lazy_authentication c) in Hw.
  destruct (KeycloakClient.ensureAuthenticated (KeycloakClient.set_lastError c "") w)
    as [[o c1] w1].
  cbn [fst snd] in *. subst o w1.
  cbn [KeycloakClient.m_client KeycloakClient.set_lastError] in Hs.
  destruct a.
  2:{ cbn [fst snd network sent]. split; [reflexivity|]. left.
      repeat split; [discriminate | left; reflexivity]. }
  specialize (Hm eq_refl).
  destruct (empty (KeycloakClient.username u)) eqn:Eu.
  { cbn [fst snd network sent]. split; [reflexivity|]. left.
    repeat split; [discriminate | right; left; reflexivity]. }
  destruct (empty (KeycloakClient.email u)) eqn:Ee.
  { cbn [fst snd network sent]. split; [reflexivity|]. left.
    repeat split; [discriminate | right; right; reflexivity]. }
  rewrite toJson_value. fold (creation_value u). cbn [bind].
  destruct (dump (creation_value u)) as [b|e|] eqn:D;
    [| | exfalso; exact (dump_returns_or_throws _ D)].
  2:{ cbn [fst snd network sent]. split; [reflexivity|]. right; left.
      split; [reflexivity | exists e; split; reflexivity]. }
  unfold Post, send. cbn [network sent].
  change {| session := KeycloakClient.m_client c1; method := POST;
            path := c_str ("/admin/realms/" ++ realm ++ "/users");
            headers := KeycloakClient.getAuthHeaders c1;
            content := TextContent b "application/json" |}
    with (creation_request c1 realm b).
  destruct (network w (sent w ++ lazy_authentication c) (creation_request c1 realm b))
    as [r0|] eqn:N.
  2:{ sent_branch Hs N. split; reflexivity. }
  destruct (status r0 =? 201) eqn:S1.
  { sent_branch Hs N. rewrite S1. split; [reflexivity | exact Hm]. }
  destruct (status r0 =? 409) eqn:S2.
  { sent_branch Hs N. rewrite S1, S2. split; reflexivity. }
  destruct (empty (body r0)) eqn:Eb; cbn [negb].
  { sent_branch Hs N. rewrite S1, S2. split; [reflexivity|].
    unfold error_detail. rewrite Eb.
    cbn [KeycloakClient.m_lastError KeycloakClient.set_lastError].
    rewrite append_empty. reflexivity. }
  pose proof (error_detail_of_body
                ("Failed to create user. Status: " ++ to_string (status r0))
                (body r0) Eb) as De.
  cbn [KeycloakClient.m_lastError KeycloakClient.set_lastError].
  match goal with
  | |- context [match ?x with Ok _ => _ | Throw _ => _ | Aborted => _ end] =>
      destruct x as [suffix|e|]
  end; try discriminate De;
    apply (f_equal (fun o => match o with Some x => x | None => EmptyString end)) in De;
    cbv beta iota in De;
    sent_branch Hs N; rewrite S1, S2; (split; [reflexivity|]);
    cbn [KeycloakClient.m_lastError KeycloakClient.set_lastError];
    rewrite De; apply append_assoc_literal.
Qed.

End Creation.

Lemma lazy_authentication_no_creation (c : KeycloakClient.t) (realm : string)
  (req : Request) :
  In req (lazy_authentication c) -> ~ is_creation_request realm req.
Proof.
  unfold lazy_authentication.
  destruct (empty (KeycloakClient.m_accessToken c) && has_credentials c);
    [|contradiction].
  intros [<- | []]. apply token_request_is_no_creation.
Qed.

Section CreationMore.
Context {text : JsonText}.

(** When a creation request is among the requests of a call, the call went
    the third way of [creation_run]: the request is the last one sent, it is
    the client's creation request for the dumped record, and its answer
    decides the outcome. *)
Lemma createUser_sent (c : KeycloakClient.t) (u : KeycloakClient.UserInfo)
  (realm : string) (w : World) (req : Request) :
  In req (issued w (snd (KeycloakClient.createUser c u realm w))) ->
  is_creation_request realm req ->
  exists b,
    dump (creation_value u) = Ok b
    /\ req = creation_request (snd (fst (KeycloakClient.createUser c u realm w))) realm b
    /\ issued w (snd (KeycloakClient.createUser c u realm w))
       = (lazy_authentication c ++ [req])%list
    /\ KeycloakClient.m_client (snd (fst (KeycloakClient.createUser c u realm w)))
       = KeycloakClient.m_client c
    /\ creation_answer (snd (fst (KeycloakClient.createUser c u realm w))) u
         (fst (fst (KeycloakClient.createUser c u realm w)))
         (network w (sent w ++ lazy_authentication c) req).
Proof.
  intros Hin Hreq.
  destruct (createUser_run c u realm w)
    as (_ & [(S & _) | [(S & _) | (b & D & _ & _ & S & M & A)]]).
  - rewrite (issued_app _ _ _ S) in Hin.
    elim (lazy_authentication_no_creation c realm req Hin Hreq).
  - rewrite (issued_app _ _ _ S) in Hin.
    elim (lazy_authentication_no_creation c realm req Hin Hreq).
  - rewrite (issued_app _ _ _ S) in *. apply in_app_or in Hin.
    destruct Hin as [Hin | [<- | []]];
      [elim (lazy_authentication_no_creation c realm req Hin Hreq)|].
    exists b. repeat split; assumption.
Qed.

(** X11. The message of the identity-provider client tells failure from
    success: after an [authenticate] or a [createUser] that returned true
    [getLastError] is empty, and after one that returned false it is not. *)
Theorem X11_message_exactly_after_failure (c : KeycloakClient.t)
  (u : KeycloakClient.UserInfo) (realm : string) (w : World) :
  (fst (fst (KeycloakClient.authenticate c w)) = Ok true ->
   KeycloakClient.getLastError (snd (fst (KeycloakClient.authenticate c w))) = "")
  /\ (fst (fst (KeycloakClient.authenticate c w)) = Ok false ->
      KeycloakClient.getLastError (snd (fst (KeycloakClient.authenticate c w))) <> "")
  /\ (fst (fst (KeycloakClient.createUser c u realm w)) = Ok true ->
      KeycloakClient.getLastError (snd (fst (KeycloakClient.createUser c u realm w))) = "")
  /\ (fst (fst (KeycloakClient.createUser c u realm w)) = Ok false ->
      KeycloakClient.getLastError (snd (fst (KeycloakClient.createUser c u realm w)))
      <> "").
Proof.
  unfold KeycloakClient.getLastError.
  split; [apply kc_authenticate_message|]. split; [apply kc_authenticate_message|].
  destruct (createUser_run c u realm w)
    as (_ & [(_ & R & M & _) | [(_ & e & _ & R) | (b & _ & _ & _ & _ & _ & A)]]).
  - rewrite R. split; [discriminate | intros _; exact M].
  - rewrite R. split; discriminate.
  - unfold creation_answer in A.
    destruct (network w (sent w ++ lazy_authentication c)
                (creation_request (snd (fst (KeycloakClient.createUser c u realm w)))
                   realm b)) as [resp|].
    + destruct (status resp =? 201); [|destruct (status resp =? 409)];
        destruct A as (R & M); rewrite R, M; split;
          try discriminate; try reflexivity.
    + destruct A as (R & M). rewrite R, M. split; discriminate.
Qed.

(** X12. [createUser] returns true exactly when it sent the creation
    request, as the last of its requests, and the network answered that
    request with status 201. *)
Theorem X12_createUser_true_iff_created (c : KeycloakClient.t)
  (u : KeycloakClient.UserInfo) (realm : string) (w : World) :
  fst (fst (KeycloakClient.createUser c u realm w)) = Ok true
  <-> exists req resp,
        issued w (snd (KeycloakClient.createUser c u realm w))
        = (lazy_authentication c ++ [req])%list
        /\ is_creation_request realm req
        /\ network w (sent w ++ lazy_authentication c) req = Some resp
        /\ status resp = 201.
Proof.
  split.
  - intros T.
    destruct (createUser_run c u realm w)
      as (_ & [(_ & R & _) | [(_ & e & _ & R) | (b & _ & _ & _ & S & _ & A)]]);
      try (rewrite R in T; discriminate T).
    exists (creation_request (snd (fst (KeycloakClient.createUser c u realm w))) realm b).
    unfold creation_answer in A.
    destruct (network w (sent w ++ lazy_authentication c)
                (creation_request (snd (fst (KeycloakClient.createUser c u realm w)))
                   realm b)) as [resp|].
    + exists resp. rewrite (issued_app _ _ _ S).
      split; [reflexivity|]. split; [split; reflexivity|]. split; [reflexivity|].
      destruct (status resp =? 201) eqn:S1; [apply Z.eqb_eq; exact S1|].
      destruct (status resp =? 409); destruct A as (R & _);
        rewrite R in T; discriminate T.
    + destruct A as (R & _). rewrite R in T. discriminate T.
  - intros (req & resp & I & Q & N & S).
    assert (Hin : In req (issued w (snd (KeycloakClient.createUser c u realm w))))
      by (rewrite I; apply in_or_app; right; left; reflexivity).
    destruct (createUser_sent c u realm w req Hin Q) as (b & _ & _ & _ & _ & A).
    unfold creation_answer in A. rewrite N in A.
    apply Z.eqb_eq in S. rewrite S in A. exact (proj1 A).
Qed.

(** X13. Every creation request [createUser] sends goes over the client's
    own session, to the user endpoint of the realm given as argument; its
    body is the dump of the record, typed application/json; and its headers
    are, as the header container keeps them (by name): Accept, then the
    bearer header Authorization of the token the client holds after the
    call, which is left out when that token is empty, then Content-Type. *)
Theorem X13_creation_request_carries_the_held_token (c : KeycloakClient.t)
  (u : KeycloakClient.UserInfo) (realm : string) (w : World) (req : Request) :
  In req (issued w (snd (KeycloakClient.createUser c u realm w))) ->
  is_creation_request realm req ->
  session req = KeycloakClient.m_client c
  /\ (exists b, dump (creation_value u) = Ok b
                /\ content req = TextContent b "application/json")
  /\ headers req
     = ([("Accept", "application/json")]
        ++ (if empty (KeycloakClient.getAccessToken
                        (snd (fst (KeycloakClient.createUser c u realm w))))
            then []
            else [("Authorization",
                   ("Bearer " ++ KeycloakClient.getAccessToken
                                   (snd (fst (KeycloakClient.createUser c u realm w))))%string)])
        ++ [("Content-Type", "application/json")])%list.
Proof.
  intros Hin Hreq.
  destruct (createUser_sent c u realm w req Hin Hreq) as (b & D & -> & _ & M & _).
  split; [exact M|]. split; [exists b; split; [exact D | reflexivity]|].
  unfold creation_request, KeycloakClient.getAccessToken. cbn [headers].
  apply getAuthHeaders_value.
Qed.

(** X14. Once the creation request is sent, its answer decides what
    [createUser] returns and reports: no response, false and the message
    Request failed to create user; status 201, true and no message; status
    409, false and a message naming the record's username as already
    existing; any other status, false and a message giving the status,
    followed by the errorMessage of the body when the body is a JSON object
    with a string under that key, by the body itself when it is anything
    else, and by nothing when it is empty. *)
Theorem X14_creation_answer_decides (c : KeycloakClient.t)
  (u : KeycloakClient.UserInfo) (realm : string) (w : World) (req : Request) :
  In req (issued w (snd (KeycloakClient.createUser c u realm w))) ->
  is_creation_request realm req ->
  match network w (sent w ++ lazy_authentication c) req with
  | None =>
      fst (fst (KeycloakClient.createUser c u realm w)) = Ok false
      /\ KeycloakClient.getLastError (snd (fst (KeycloakClient.createUser c u realm w)))
         = "Request failed to create user"
  | Some resp =>
      if status resp =? 201 then
        fst (fst (KeycloakClient.createUser c u realm w)) = Ok true
        /\ KeycloakClient.getLastError (snd (fst (KeycloakClient.createUser c u realm w)))
           = ""
      else if status resp =? 409 then
        fst (fst (KeycloakClient.createUser c u realm w)) = Ok false
        /\ KeycloakClient.getLastError (snd (fst (KeycloakClient.createUser c u realm w)))
           = "User with username '" ++ KeycloakClient.username u ++ "' already exists"
      else
        fst (fst (KeycloakClient.createUser c u realm w)) = Ok false
        /\ KeycloakClient.getLastError (snd (fst (KeycloakClient.createUser c u realm w)))
           = "Failed to create user. Status: " ++ to_string (status resp)
             ++ (if empty (body resp) then ""
                 else match parse (body resp) with
                      | Ok j =>
                          match field j "errorMessage" with
                          | Some (JString s) => " - " ++ s
                          | _ => " - " ++ body resp
                          end
                      | _ => " - " ++ body resp
                      end)
  end.
Proof.
  intros Hin Hreq.
  destruct (createUser_sent c u realm w req Hin Hreq) as (b & _ & _ & _ & _ & A).
  exact A.
Qed.

(** X16. [setCredentials] and [createUser] compose: after the credentials
    were replaced by a non-empty username and password, the next
    [createUser] first sends the token request of the client's realm and
    client id with the new credentials, whatever token the client held
    before, and only then anything else. *)
Theorem X16_createUser_after_setCredentials (c : KeycloakClient.t)
  (username password : string) (u : KeycloakClient.UserInfo) (realm : string)
  (w : World) :
  empty username = false ->
  empty password = false ->
  exists rest,
    issued w (snd (KeycloakClient.createUser
                     (KeycloakClient.setCredentials c username password) u realm w))
    = token_request (KeycloakClient.m_client c) (KeycloakClient.m_realm c)
        (KeycloakClient.m_clientId c) username password :: rest.
Proof.
  intros Eu Ep.
  destruct (createUser_world (KeycloakClient.setCredentials c username password)
              u realm w) as (_ & l & S & _).
  rewrite (issued_app _ _ _ S). exists l.
  unfold lazy_authentication, has_credentials, token_request_of.
  cbn [KeycloakClient.setCredentials KeycloakClient.m_accessToken
       KeycloakClient.m_username KeycloakClient.m_password KeycloakClient.m_client
       KeycloakClient.m_realm KeycloakClient.m_clientId empty andb].
  rewrite Eu, Ep. reflexivity.
Qed.

End CreationMore.

(** ** The extras, run *)

(** X5 at a directory that answers with the JSON value of one user inside
    the users envelope. *)
Lemma X5_witness :
  User.toJson stale_user
  = Ok (JObject [("guid", JString "old"); ("is_active", JBool true);
                 ("is_reportable", JBool true); ("name", JString "Old")])
  /\ fst (listing
       "{'users':[{'guid':'old','is_active':true,'is_reportable':true,'name':'Old'}]}")
     = (Ok true, {| LogipadClient.users := [stale_user] |}).
Proof.
  split; [reflexivity|].
  apply (X5_getAllUsers_returns_what_was_written (text := nlohmann)
           (directory_client "abc") {| LogipadClient.users := [] |}
           "identity.demo.prod.logipad.net" 443
           (replying 200 (json_text
              "{'users':[{'guid':'old','is_active':true,'is_reportable':true,'name':'Old'}]}"))
           {| status := 200;
              body := json_text
                "{'users':[{'guid':'old','is_active':true,'is_reportable':true,'name':'Old'}]}" |}
           (JObject [("users",
              JArray [JObject [("guid", JString "old"); ("is_active", JBool true);
                               ("is_reportable", JBool true); ("name", JString "Old")]])])
           [JObject [("guid", JString "old"); ("is_active", JBool true);
                     ("is_reportable", JBool true); ("name", JString "Old")]]
           [stale_user]);
    try reflexivity.
  constructor; [reflexivity | constructor].
Defined.

(** X6 at an array whose second entry has a number as guid: false, and the
    record of the first entry is still in the collection. *)
Lemma X6_witness :
  fst (fst (listing "[{'guid':'g1'},{'guid':7},{'guid':'g3'}]")) = Ok false
  /\ map LogipadClient.guid
       (LogipadClient.users
          (snd (fst (listing "[{'guid':'g1'},{'guid':7},{'guid':'g3'}]")))) = ["g1"]
  /\ exists e err,
       Forall2 (fun e u => LogipadClient.read_user e = Ok u)
         (firstn (List.length (LogipadClient.users
                    (snd (fst (listing "[{'guid':'g1'},{'guid':7},{'guid':'g3'}]")))))
            [JObject [("guid", JString "g1")]; JObject [("guid", JInt 7)];
             JObject [("guid", JString "g3")]])
         (LogipadClient.users
            (snd (fst (listing "[{'guid':'g1'},{'guid':7},{'guid':'g3'}]"))))
       /\ nth_error
            [JObject [("guid", JString "g1")]; JObject [("guid", JInt 7)];
             JObject [("guid", JString "g3")]]
            (List.length (LogipadClient.users
               (snd (fst (listing "[{'guid':'g1'},{'guid':7},{'guid':'g3'}]")))))
          = Some e
       /\ LogipadClient.read_user e = Throw err.
Proof.
  split; [reflexivity|]. split; [reflexivity|].
  apply (X6_getAllUsers_false_keeps_the_records_read (text := nlohmann)
           (directory_client "abc") {| LogipadClient.users := [] |}
           "identity.demo.prod.logipad.net" 443
           (replying 200 (json_text "[{'guid':'g1'},{'guid':7},{'guid':'g3'}]"))
           {| status := 200;
              body := json_text "[{'guid':'g1'},{'guid':7},{'guid':'g3'}]" |}
           (JArray [JObject [("guid", JString "g1")]; JObject [("guid", JInt 7)];
                    JObject [("guid", JString "g3")]])
           [JObject [("guid", JString "g1")]; JObject [("guid", JInt 7)];
            JObject [("guid", JString "g3")]]
           (snd (fst (listing "[{'guid':'g1'},{'guid':7},{'guid':'g3'}]")))
           (snd (listing "[{'guid':'g1'},{'guid':7},{'guid':'g3'}]")));
    reflexivity.
Defined.

(** X7 at a directory that answers 503. *)
Lemma X7_witness :
  sent (snd (LogipadClient.getAllUsers (directory_client "abc")
               {| LogipadClient.users := [stale_user] |}
               "identity.demo.prod.logipad.net" 443 (replying 503 "busy")))
  = [users_request "abc" "identity.demo.prod.logipad.net" 443]
  /\ fst (LogipadClient.getAllUsers (directory_client "abc")
            {| LogipadClient.users := [stale_user] |}
            "identity.demo.prod.logipad.net" 443 (replying 503 "busy"))
     = (Ok false, {| LogipadClient.users := [] |}).
Proof.
  pose proof (X7_getAllUsers_sends_one_request (text := nlohmann)
                (directory_client "abc") {| LogipadClient.users := [stale_user] |}
                "identity.demo.prod.logipad.net" 443 (replying 503 "busy") eq_refl)
    as (W & F).
  split; [rewrite W; reflexivity|].
  apply F. discriminate.
Defined.

(** X8 at an array of a number, a string and null. *)
Lemma X8_witness :
  fst (listing "[1,'x',null]")
  = (Ok true, {| LogipadClient.users := [blank_user; blank_user; blank_user] |}).
Proof.
  apply (X8_non_object_entries_read_as_blank (text := nlohmann)
           (directory_client "abc") {| LogipadClient.users := [] |}
           "identity.demo.prod.logipad.net" 443
           (replying 200 (json_text "[1,'x',null]"))
           {| status := 200; body := json_text "[1,'x',null]" |}
           (JArray [JInt 1; JString "x"; JNull])
           [JInt 1; JString "x"; JNull]);
    try reflexivity.
  repeat constructor.
Defined.

(** X13 at the call of the demonstration program, the client holding the
    token abc. *)
Lemma X13_witness :
  session (demo_creation_request
     "{'credentials':[{'temporary':true,'type':'password','value':'logipad'}],'email':'testuser@test.com','emailVerified':true,'enabled':true,'firstName':'Test','lastName':'User','username':'aaaaa'}")
  = KeycloakClient.m_client (provider_client "abc")
  /\ headers (demo_creation_request
       "{'credentials':[{'temporary':true,'type':'password','value':'logipad'}],'email':'testuser@test.com','emailVerified':true,'enabled':true,'firstName':'Test','lastName':'User','username':'aaaaa'}")
     = [("Accept", "application/json"); ("Authorization", "Bearer abc");
        ("Content-Type", "application/json")].
Proof.
  pose proof (X13_creation_request_carries_the_held_token (text := nlohmann)
                (provider_client "abc") (demo_user "testpassword") "Logipad"
                (replying 201 "")
                (demo_creation_request
                   "{'credentials':[{'temporary':true,'type':'password','value':'logipad'}],'email':'testuser@test.com','emailVerified':true,'enabled':true,'firstName':'Test','lastName':'User','username':'aaaaa'}")
                (or_introl eq_refl) (conj eq_refl eq_refl))
    as (S & _ & H).
  split; [exact S | exact H].
Defined.

(** X14 at a user endpoint that answers 400 with an errorMessage. *)
Lemma X14_witness :
  fst (fst (KeycloakClient.createUser (provider_client "abc")
              (demo_user "testpassword") "Logipad"
              (replying 400 (json_text "{'errorMessage':'bad realm'}")))) = Ok false
  /\ KeycloakClient.getLastError
       (snd (fst (KeycloakClient.createUser (provider_client "abc")
                    (demo_user "testpassword") "Logipad"
                    (replying 400 (json_text "{'errorMessage':'bad realm'}")))))
     = "Failed to create user. Status: 400 - bad realm".
Proof.
  exact (X14_creation_answer_decides (text := nlohmann)
           (provider_client "abc") (demo_user "testpassword") "Logipad"
           (replying 400 (json_text "{'errorMessage':'bad realm'}"))
           (demo_creation_request
              "{'credentials':[{'temporary':true,'type':'password','value':'logipad'}],'email':'testuser@test.com','emailVerified':true,'enabled':true,'firstName':'Test','lastName':'User','username':'aaaaa'}")
           (or_introl eq_refl) (conj eq_refl eq_refl)).
Defined.

(** X16 at the client of the demonstration program, holding a token, given
    new credentials, in a world where nothing answers. *)
Lemma X16_witness :
  exists rest,
    issued unreachable
      (snd (KeycloakClient.createUser
              (KeycloakClient.setCredentials (provider_client "old") "operator" "renewed")
              (demo_user "testpassword") "Logipad" unreachable))
    = token_request (KeycloakClient.m_client (provider_client "old")) "master"
        "admin-cli" "operator" "renewed" :: rest.
Proof.
  apply (X16_createUser_after_setCredentials (text := nlohmann)
           (provider_client "old") "operator" "renewed" (demo_user "testpassword")
           "Logipad" unreachable); reflexivity.
Defined.

(** ** Tokens across calls *)

Section TokensAcrossCalls.
Context {text : JsonText}.

Lemma createUser_keeps_held_token (c : KeycloakClient.t)
  (u : KeycloakClient.UserInfo) (realm : string) (w : World) :
  empty (KeycloakClient.m_accessToken c) = false ->
  KeycloakClient.m_accessToken (snd (fst (KeycloakClient.createUser c u realm w)))
  = KeycloakClient.m_accessToken c.
Proof.
  intros T. unfold KeycloakClient.createUser, KeycloakClient.ensureAuthenticated.
  cbn [KeycloakClient.m_accessToken KeycloakClient.set_lastError]. rewrite T.
  destruct (empty (KeycloakClient.username u)); [reflexivity|].
  destruct (empty (KeycloakClient.email u)); [reflexivity|].
  match goal with |- context [match ?x with Ok _ => _ | Throw _ => _ | Aborted => _ end] =>
    destruct x end; try reflexivity.
  unfold Post, send. on_answer r0; [|reflexivity].
  destruct (status r0 =? 201); [reflexivity|].
  destruct (status r0 =? 409); [reflexivity|].
  destruct (negb (empty (body r0))); [|reflexivity].
  match goal with |- context [match ?x with Ok _ => _ | Throw _ => _ | Aborted => _ end] =>
    destruct x end; reflexivity.
Qed.

(** X17. A token once held is trusted: with a non-empty token [createUser]
    never sends a token request and never replaces the token, whatever the
    user endpoint answers (a 401 included). It sends either nothing or the
    one creation request. *)
Theorem X17_createUser_trusts_the_held_token (c : KeycloakClient.t)
  (u : KeycloakClient.UserInfo) (realm : string) (w : World) :
  empty (KeycloakClient.m_accessToken c) = false ->
  KeycloakClient.getAccessToken (snd (fst (KeycloakClient.createUser c u realm w)))
  = KeycloakClient.getAccessToken c
  /\ (issued w (snd (KeycloakClient.createUser c u realm w)) = []
      \/ exists b,
           dump (creation_value u) = Ok b
           /\ issued w (snd (KeycloakClient.createUser c u realm w))
              = [creation_request c realm b]).
Proof.
  intros T. split; [apply createUser_keeps_held_token; exact T|].
  assert (L : lazy_authentication c = [])
    by (unfold lazy_authentication; rewrite T; reflexivity).
  destruct (createUser_run c u realm w)
    as (_ & [(S & _) | [(S & _) | (b & D & _ & _ & S & M & _)]]);
    rewrite L in S.
  - left. apply issued_app. exact S.
  - left. apply issued_app. exact S.
  - right. exists b. split; [exact D|]. rewrite (issued_app _ _ _ S).
    cbn [app]. f_equal. unfold creation_request, KeycloakClient.getAuthHeaders.
    rewrite M, (createUser_keeps_held_token c u realm w T). reflexivity.
Qed.

(** X18. [authenticate] and [getAllUsers] of the directory client compose
    through the token: when the token endpoint grants the string [s], the
    next [getAllUsers] sends its one request with Bearer [s] as
    Authorization; unless [s] is empty, in which case [authenticate] has
    returned true all the same and [getAllUsers] returns false without
    sending anything. *)
Theorem X18_listing_after_authentication (c : LogipadClient.t) (w : World)
  (s : string) (us : LogipadClient.Users) (apiHost : string) (apiPort : Z) :
  empty (LogipadClient.m_username c) || empty (LogipadClient.m_password c) = false ->
  grants w (directory_token_request c) s ->
  fst (fst (LogipadClient.authenticate c w)) = Ok true
  /\ issued (snd (LogipadClient.authenticate c w))
       (snd (LogipadClient.getAllUsers (snd (fst (LogipadClient.authenticate c w)))
               us apiHost apiPort (snd (LogipadClient.authenticate c w))))
     = (if empty s then [] else [users_request s apiHost apiPort])
  /\ (empty s = true ->
      fst (fst (LogipadClient.getAllUsers (snd (fst (LogipadClient.authenticate c w)))
                  us apiHost apiPort (snd (LogipadClient.authenticate c w))))
      = Ok false).
Proof.
  intros C G.
  destruct G as (resp & j & N & S & P & F).
  destruct (lc_authenticate_answered c w resp C N S) as [(s' & G' & E) | (NG & _)].
  2:{ exfalso. apply (NG s). exists resp, j. repeat split; assumption. }
  assert (s' = s) as ->.
  { destruct G' as (r' & j' & N' & _ & P' & F'). rewrite N in N'. injection N' as <-.
    rewrite P in P'. injection P' as <-. rewrite F in F'. injection F' as <-.
    reflexivity. }
  destruct (LogipadClient.authenticate c w) as [[r c'] w1]. cbn [fst snd] in *.
  injection E as -> ->. split; [reflexivity|].
  destruct (empty s) eqn:Es.
  - unfold LogipadClient.getAllUsers.
    cbn [LogipadClient.m_accessToken LogipadClient.set_accessToken]. rewrite Es.
    cbn [fst snd]. split; [|reflexivity].
    apply issued_app. symmetry. apply app_nil_r.
  - split; [|discriminate].
    destruct (getAllUsers_one_request (LogipadClient.set_accessToken c s) us
                apiHost apiPort w1 Es) as (W & _).
    rewrite W. apply issued_app. reflexivity.
Qed.

End TokensAcrossCalls.

(** X17 at a user endpoint that answers 401 to the token abc: the token is
    kept and no token request goes out. *)
Lemma X17_witness :
  KeycloakClient.getAccessToken
    (snd (fst (KeycloakClient.createUser (provider_client "abc")
                 (demo_user "testpassword") "Logipad" (replying 401 ""))))
  = "abc"
  /\ (issued (replying 401 "")
        (snd (KeycloakClient.createUser (provider_client "abc")
                (demo_user "testpassword") "Logipad" (replying 401 ""))) = []
      \/ exists b,
           dump (creation_value (demo_user "testpassword")) = Ok b
           /\ issued (replying 401 "")
                (snd (KeycloakClient.createUser (provider_client "abc")
                        (demo_user "testpassword") "Logipad" (replying 401 "")))
              = [creation_request (provider_client "abc") "Logipad" b]).
Proof.
  apply (X17_createUser_trusts_the_held_token (text := nlohmann)
           (provider_client "abc") (demo_user "testpassword") "Logipad"
           (replying 401 "")).
  reflexivity.
Defined.

(** X18 at a token endpoint that grants abc. *)
Lemma X18_witness :
  fst (fst (LogipadClient.authenticate (directory_client "")
              (replying 200 (json_text "{'access_token':'abc'}")))) = Ok true
  /\ issued
       (snd (LogipadClient.authenticate (directory_client "")
               (replying 200 (json_text "{'access_token':'abc'}"))))
       (snd (LogipadClient.getAllUsers
               (snd (fst (LogipadClient.authenticate (directory_client "")
                            (replying 200 (json_text "{'access_token':'abc'}")))))
               {| LogipadClient.users := [] |} "identity.demo.prod.logipad.net" 443
               (snd (LogipadClient.authenticate (directory_client "")
                       (replying 200 (json_text "{'access_token':'abc'}"))))))
     = [users_request "abc" "identity.demo.prod.logipad.net" 443].
Proof.
  pose proof (X18_listing_after_authentication (text := nlohmann)
                (directory_client "")
                (replying 200 (json_text "{'access_token':'abc'}")) "abc"
                {| LogipadClient.users := [] |} "identity.demo.prod.logipad.net" 443
                eq_refl) as H.
  destruct H as (T & I & _).
  - exists {| status := 200; body := json_text "{'access_token':'abc'}" |},
           (JObject [("access_token", JString "abc")]).
    repeat split.
  - split; [exact T | exact I].
Defined.
